(** * PiTrac GPS logger: a shallow embedding of [gps_logger.py]

    The development follows the three parts of the script:
    - [parse_gps], which reads the serial lines of one five-second window
      and accumulates the fields it decodes into the [gps_data] dictionary;
    - [create_aff_feature], which builds the GeoJSON feature of one fix;
    - the body of the [while True] loop of the main program, which gates on
      the fix, classifies the event and appends the feature.

    Python floats are IEEE-754 binary64 numbers; they are modelled by
    [spec_float] with the operations of [SpecFloat] at precision 53 and
    maximal exponent 1024.  Python exceptions are modelled by an error
    result, and the mutation of [gps_data] inside the [try] block by a
    state monad whose state survives a raised exception. *)

From Stdlib Require Import ZArith List String Ascii Bool Lia.
From Stdlib Require Import Floats.SpecFloat.
Import ListNotations.

Local Open Scope Z_scope.
Local Open Scope string_scope.

(** ** Python results *)

(** The outcome of evaluating a Python expression: a value, or a raised
    exception (every exception of the script is an [Exception]). *)
Inductive pyres (A : Type) : Type :=
| Ok (a : A)
| Raise.
Arguments Ok {A} a.
Arguments Raise {A}.

Definition pyres_bind {A B : Type} (r : pyres A) (k : A -> pyres B) : pyres B :=
  match r with
  | Ok a => k a
  | Raise => Raise
  end.

(** ** Python floats *)

Module PyFloat.

Definition prec : Z := 53.
Definition emax : Z := 1024.

Definition float : Type := spec_float.

Definition mul : float -> float -> float := SFmul prec emax.
Definition add : float -> float -> float := SFadd prec emax.
Definition div : float -> float -> float := SFdiv prec emax.

(** The binary64 number nearest to the fraction [n / d] carrying the sign
    [s]; this is the value Python gives to a decimal literal and the value
    [strtod] gives to a decimal string. *)
Definition of_ratio (s : bool) (n : Z) (d : positive) : float :=
  match n with
  | Zpos p => SFdiv prec emax (S754_finite s p 0) (S754_finite false d 0)
  | _ => S754_zero s
  end.

(** A non-negative decimal literal [n / d], such as [0.514444]. *)
Definition lit (n : Z) (d : positive) : float := of_ratio false n d.

Definition zero : float := S754_zero false.

(** [x > 0], [x == 0] and [bool(x)] on floats.  Comparing with the integer
    [0] is the same as comparing with [0.0]; a NaN is neither greater than
    nor equal to zero, and is truthy. *)
Definition gt0 (x : float) : bool := SFltb zero x.
Definition eq0 (x : float) : bool := SFeqb x zero.
Definition truthy (x : float) : bool := negb (eq0 x).

Definition is_finite (x : float) : bool :=
  match x with
  | S754_zero _ | S754_finite _ _ _ => true
  | S754_infinity _ | S754_nan => false
  end.

(** The integer nearest to [n / d], ties going to the even one. *)
Definition round_half_even (n : Z) (d : positive) : Z :=
  let q := n / Zpos d in
  let r := n mod Zpos d in
  match 2 * r ?= Zpos d with
  | Lt => q
  | Gt => q + 1
  | Eq => if Z.even q then q else q + 1
  end.

(** The magnitude of a finite float [m * 2^e] as a fraction. *)
Definition num_of (m : positive) (e : Z) : Z := Zpos m * 2 ^ (Z.max e 0).
Definition den_of (e : Z) : positive := Z.to_pos (2 ^ (Z.max (- e) 0)).

(** [round(x, 1)]: infinities and NaN round to themselves; a finite [x] is
    converted to the decimal with one digit after the point that is nearest
    to its exact value (ties to even), and that decimal is converted back
    to the nearest float.  The sign of [x] is kept, so that
    [round(-0.04, 1)] is [-0.0]. *)
Definition round1 (x : float) : float :=
  match x with
  | S754_finite s m e => of_ratio s (round_half_even (10 * num_of m e) (den_of e)) 10
  | _ => x
  end.

(** [int(x)]: truncation toward zero; raises on infinities
    ([OverflowError]) and NaN ([ValueError]). *)
Definition to_int (x : float) : pyres Z :=
  match x with
  | S754_zero _ => Ok 0
  | S754_finite s m e => Ok (cond_Zopp s (Z.shiftl (Zpos m) e))
  | S754_infinity _ | S754_nan => Raise
  end.

(** What it means for the integer [n] to be [x] truncated toward zero:
    [|n| <= |x| < |n| + 1], with [n] on the side of zero where [x] is. *)
Definition truncation_of (n : Z) (x : float) : Prop :=
  match x with
  | S754_zero _ => n = 0
  | S754_finite s m e =>
      Z.abs n * Zpos (den_of e) <= num_of m e < (Z.abs n + 1) * Zpos (den_of e)
      /\ (if s then n <= 0 else 0 <= n)
  | S754_infinity _ | S754_nan => False
  end.

(** What it means for the integer [k] to be nearest to ten times the
    magnitude of the finite float [m * 2^e]. *)
Definition nearest_tenths (k : Z) (m : positive) (e : Z) : Prop :=
  2 * Z.abs (10 * num_of m e - k * Zpos (den_of e)) <= Zpos (den_of e).

End PyFloat.

Definition float : Type := PyFloat.float.

(** ** Python strings *)

Module PyStr.

(** [s.startswith('$')]. *)
Definition starts_with_dollar (s : string) : bool :=
  match s with
  | String c _ => Ascii.eqb c "$"%char
  | EmptyString => false
  end.

(** [bool(s)]: a string is truthy when it is not empty. *)
Definition truthy (s : string) : bool :=
  match s with
  | EmptyString => false
  | String _ _ => true
  end.

(** [sub in s]. *)
Fixpoint contains (sub s : string) : bool :=
  if String.prefix sub s then true
  else match s with
       | EmptyString => false
       | String _ rest => contains sub rest
       end.

(** [s.split(sep)] for a one-character separator: the list always has at
    least one element. *)
Fixpoint split (sep : ascii) (s : string) : list string :=
  match s with
  | EmptyString => [EmptyString]
  | String c rest =>
      if Ascii.eqb c sep then EmptyString :: split sep rest
      else match split sep rest with
           | hd :: tl => String c hd :: tl
           | [] => [String c EmptyString]
           end
  end.

(** [parts[i]] once the length of [parts] has been checked. *)
Definition item (parts : list string) (i : nat) : string := nth i parts EmptyString.

(** [b.decode('ascii', errors='ignore')]: bytes above 127 are dropped. *)
Fixpoint decode_ascii_ignore (b : string) : string :=
  match b with
  | EmptyString => EmptyString
  | String c rest =>
      if (N_of_ascii c <? 128)%N then String c (decode_ascii_ignore rest)
      else decode_ascii_ignore rest
  end.

(** The ASCII characters for which [str.isspace] holds. *)
Definition isspace (c : ascii) : bool :=
  let n := N_of_ascii c in
  ((9 <=? n) && (n <=? 13) || (28 <=? n) && (n <=? 32))%N.

Fixpoint lstrip (s : string) : string :=
  match s with
  | EmptyString => EmptyString
  | String c rest => if isspace c then lstrip rest else s
  end.

Fixpoint rstrip (s : string) : string :=
  match s with
  | EmptyString => EmptyString
  | String c rest =>
      match rstrip rest with
      | EmptyString => if isspace c then EmptyString else String c EmptyString
      | r => String c r
      end
  end.

(** [s.strip()]. *)
Definition strip (s : string) : string := rstrip (lstrip s).

(** Decimal digits of a natural number, padded with zeros to [width]
    characters, as [strftime] prints years, months, days, hours, minutes
    and seconds. *)
Fixpoint digits (fuel : nat) (n : Z) (acc : string) : string :=
  match fuel with
  | O => acc
  | S fuel' =>
      let acc' := String (ascii_of_N (48 + Z.to_N (n mod 10))) acc in
      if (n / 10 =? 0)%Z then acc' else digits fuel' (n / 10) acc'
  end.

Fixpoint zeros (k : nat) : string :=
  match k with
  | O => EmptyString
  | S k' => String "0"%char (zeros k')
  end.

Definition padded (width : nat) (n : Z) : string :=
  let d := digits 20 n EmptyString in
  zeros (width - String.length d) ++ d.

End PyStr.

(** ** The pynmea2 interface

    [pynmea2] is a library the script imports.  The script only reads a
    handful of attributes of the sentence object [pynmea2.parse] returns, so
    a parsed sentence is modelled by the values of those attributes. *)

(** The value of a sentence field that has a converter ([float] for speed,
    course and altitude, [datestamp] and [timestamp] for date and time):
    [None] when the field is empty, the converted value when the converter
    accepts the text, and the text itself when it does not. *)
Inductive attr (A : Type) : Type :=
| AttrNone
| AttrVal (a : A)
| AttrRaw (s : string).
Arguments AttrNone {A}.
Arguments AttrVal {A} a.
Arguments AttrRaw {A} s.

Record date : Type := mk_date { year : Z; month : Z; day : Z }.
Record time_of_day : Type := mk_time { hour : Z; minute : Z; second : Z }.

(** [d.strftime('%Y-%m-%d')] and [t.strftime('%H:%M:%S')]. *)
Definition strftime_date (d : date) : string :=
  PyStr.padded 4 (year d) ++ "-" ++ PyStr.padded 2 (month d) ++ "-" ++ PyStr.padded 2 (day d).

Definition strftime_time (t : time_of_day) : string :=
  PyStr.padded 2 (hour t) ++ ":" ++ PyStr.padded 2 (minute t) ++ ":" ++ PyStr.padded 2 (second t).

(** An RMC sentence (position and velocity).  [latitude] and [longitude] are
    computed properties returning a float in signed degrees, and raise
    [ValueError] on a coordinate that is not in degrees-and-minutes form. *)
Record rmc_sentence : Type := mk_rmc {
  status : string;
  latitude : pyres float;
  longitude : pyres float;
  true_course : attr float;
  spd_over_grnd : attr float;
  datestamp : attr date;
  timestamp : attr time_of_day
}.

(** A GGA sentence (fix quality).  [num_sats] has no converter and is the
    text of the field. *)
Record gga_sentence : Type := mk_gga {
  altitude : attr float;
  num_sats : string
}.

(** The sentence classes the script tests with [isinstance]; every other
    class pynmea2 knows (GSA, GSV, VTG, ...) is [OtherSentence]. *)
Inductive nmea_sentence : Type :=
| RMC (m : rmc_sentence)
| GGA (m : gga_sentence)
| OtherSentence.

(** ** The fix dictionary [gps_data] *)

(** The value stored under ['course']: the integer [0] or a rounded float. *)
Inductive number : Type :=
| NInt (z : Z)
| NFloat (f : float).

(** The keys of [gps_data]; [gps_timestamp] is the key ['timestamp']. *)
Record gps_data : Type := mk_gps {
  gps_timestamp : string;
  posTime : option string;
  lat : option float;
  lon : option float;
  alt : option float;
  course : number;
  speed_m_s : float;
  pdop : option float;
  fix_type : string;
  valid : bool;
  sats : option Z
}.

(** The dictionary [parse_gps] starts from; [now] is
    [datetime.utcnow().isoformat() + 'Z']. *)
Definition initial_gps_data (now : string) : gps_data :=
  {| gps_timestamp := now;
     posTime := None;
     lat := None;
     lon := None;
     alt := None;
     course := NInt 0;
     speed_m_s := PyFloat.zero;
     pdop := None;
     fix_type := "Invalid";
     valid := false;
     sats := None |}.

(** Assignments [gps_data[key] = v]. *)
Definition with_posTime (v : option string) (g : gps_data) : gps_data :=
  mk_gps (gps_timestamp g) v (lat g) (lon g) (alt g) (course g) (speed_m_s g)
         (pdop g) (fix_type g) (valid g) (sats g).
Definition with_lat (v : option float) (g : gps_data) : gps_data :=
  mk_gps (gps_timestamp g) (posTime g) v (lon g) (alt g) (course g) (speed_m_s g)
         (pdop g) (fix_type g) (valid g) (sats g).
Definition with_lon (v : option float) (g : gps_data) : gps_data :=
  mk_gps (gps_timestamp g) (posTime g) (lat g) v (alt g) (course g) (speed_m_s g)
         (pdop g) (fix_type g) (valid g) (sats g).
Definition with_alt (v : option float) (g : gps_data) : gps_data :=
  mk_gps (gps_timestamp g) (posTime g) (lat g) (lon g) v (course g) (speed_m_s g)
         (pdop g) (fix_type g) (valid g) (sats g).
Definition with_course (v : number) (g : gps_data) : gps_data :=
  mk_gps (gps_timestamp g) (posTime g) (lat g) (lon g) (alt g) v (speed_m_s g)
         (pdop g) (fix_type g) (valid g) (sats g).
Definition with_speed_m_s (v : float) (g : gps_data) : gps_data :=
  mk_gps (gps_timestamp g) (posTime g) (lat g) (lon g) (alt g) (course g) v
         (pdop g) (fix_type g) (valid g) (sats g).
Definition with_pdop (v : option float) (g : gps_data) : gps_data :=
  mk_gps (gps_timestamp g) (posTime g) (lat g) (lon g) (alt g) (course g) (speed_m_s g)
         v (fix_type g) (valid g) (sats g).
Definition with_fix_type (v : string) (g : gps_data) : gps_data :=
  mk_gps (gps_timestamp g) (posTime g) (lat g) (lon g) (alt g) (course g) (speed_m_s g)
         (pdop g) v (valid g) (sats g).
Definition with_valid (v : bool) (g : gps_data) : gps_data :=
  mk_gps (gps_timestamp g) (posTime g) (lat g) (lon g) (alt g) (course g) (speed_m_s g)
         (pdop g) (fix_type g) v (sats g).
Definition with_sats (v : option Z) (g : gps_data) : gps_data :=
  mk_gps (gps_timestamp g) (posTime g) (lat g) (lon g) (alt g) (course g) (speed_m_s g)
         (pdop g) (fix_type g) (valid g) v.

(** ** The decoding monad

    One iteration of the [while] loop of [parse_gps] runs inside [try]:
    it mutates [gps_data] as it goes and may raise at any point, and the
    assignments made before the exception stay.  A computation therefore
    returns the dictionary it reached together with its result. *)
Definition decode (A : Type) : Type := gps_data -> pyres A * gps_data.

Definition ret {A : Type} (a : A) : decode A := fun g => (Ok a, g).

Definition bind {A B : Type} (c : decode A) (k : A -> decode B) : decode B :=
  fun g =>
    match c g with
    | (Ok a, g') => k a g'
    | (Raise, g') => (Raise, g')
    end.

(** Evaluating an expression that does not touch the dictionary. *)
Definition eval {A : Type} (r : pyres A) : decode A := fun g => (r, g).

(** An assignment to the dictionary. *)
Definition assign (upd : gps_data -> gps_data) : decode unit := fun g => (Ok tt, upd g).

Definition skip : decode unit := ret tt.

Declare Scope decode_scope.
Delimit Scope decode_scope with decode.
Notation "x <- c ;; k" := (bind c (fun x => k))
  (at level 100, c at next level, right associativity) : decode_scope.
Notation "c ;; k" := (bind c (fun _ => k))
  (at level 100, right associativity) : decode_scope.

(** What [ser.readline()] gives: the bytes of a line (none on a timeout), or
    an exception of the serial port. *)
Inductive serial_read : Type :=
| Bytes (b : string)
| ReadFailed.

(** Line 51: the text of the line read,
    [b.decode('ascii', errors='ignore').strip()]. *)
Definition line_of (b : string) : string := PyStr.strip (PyStr.decode_ascii_ignore b).

(** ** [parse_gps] *)

(** The factor of [knots * 0.514444]. *)
Definition KNOTS_TO_M_S : float := PyFloat.lit 514444 1000000.

Section Decoder.

(** [pynmea2.parse], which raises on a line it cannot parse, and the
    built-in conversions [float(s)] and [int(s)] of a string, which raise
    [ValueError] on text that is not a number. *)
Variable pynmea2_parse : string -> pyres nmea_sentence.
Variable float_of_string : string -> pyres float.
Variable int_of_string : string -> pyres Z.

Local Open Scope decode_scope.

(** [bool(v)] and [float(v)] of a converted field. *)
Definition attr_truthy (v : attr float) : bool :=
  match v with
  | AttrNone => false
  | AttrVal f => PyFloat.truthy f
  | AttrRaw s => PyStr.truthy s
  end.

Definition attr_float (v : attr float) : pyres float :=
  match v with
  | AttrNone => Raise
  | AttrVal f => Ok f
  | AttrRaw s => float_of_string s
  end.

(** [v.strftime(...)]: [None] and a string have no such method. *)
Definition attr_strftime {A : Type} (fmt : A -> string) (v : attr A) : pyres string :=
  match v with
  | AttrVal a => Ok (fmt a)
  | AttrNone | AttrRaw _ => Raise
  end.

(** The right-hand side of line 58:
    [float(parts[15]) if parts[15] else None]. *)
Definition pdop_value (parts : list string) : pyres (option float) :=
  if PyStr.truthy (PyStr.item parts 15)
  then pyres_bind (float_of_string (PyStr.item parts 15)) (fun f => Ok (Some f))
  else Ok None.

(** Lines 55-63: the test on ['GSA' in line]. *)
Definition gsa_fields (line : string) : decode unit :=
  if PyStr.contains "GSA" line then
    let parts := PyStr.split ","%char line in
    if (16 <=? List.length parts)%nat then
      p <- eval (pdop_value parts) ;;
      assign (with_pdop p) ;;
      let fix_ := PyStr.item parts 2 in
      if String.eqb fix_ "2" then assign (with_fix_type "2D")
      else if String.eqb fix_ "3" then assign (with_fix_type "3D")
      else skip
    else skip
  else skip.

(** Lines 68-69: the status of an RMC sentence. *)
Definition rmc_status (msg : rmc_sentence) : decode unit :=
  if String.eqb (status msg) "A" then assign (with_valid true) else skip.

(** Lines 70-72: its position.  [and] evaluates [msg.longitude] only when
    [msg.latitude] is truthy. *)
Definition rmc_position (msg : rmc_sentence) : decode unit :=
  la <- eval (latitude msg) ;;
  both <- (if PyFloat.truthy la
           then lo <- eval (longitude msg) ;; ret (PyFloat.truthy lo)
           else ret false) ;;
  if both : bool then
    la' <- eval (latitude msg) ;;
    assign (with_lat (Some la')) ;;
    lo' <- eval (longitude msg) ;;
    assign (with_lon (Some lo'))
  else skip.

(** The right-hand side of line 73:
    [round(float(msg.true_course), 1) if msg.true_course else 0]. *)
Definition course_value (msg : rmc_sentence) : pyres number :=
  if attr_truthy (true_course msg)
  then pyres_bind (attr_float (true_course msg)) (fun f => Ok (NFloat (PyFloat.round1 f)))
  else Ok (NInt 0).

(** The right-hand side of line 74:
    [float(msg.spd_over_grnd) if msg.spd_over_grnd else 0.0]. *)
Definition knots_value (msg : rmc_sentence) : pyres float :=
  if attr_truthy (spd_over_grnd msg)
  then attr_float (spd_over_grnd msg)
  else Ok PyFloat.zero.

(** The right-hand side of line 75: [round(knots * 0.514444, 1)]. *)
Definition speed_value (knots : float) : float :=
  PyFloat.round1 (PyFloat.mul knots KNOTS_TO_M_S).

(** The right-hand side of line 76. *)
Definition posTime_value (msg : rmc_sentence) : pyres string :=
  pyres_bind (attr_strftime strftime_date (datestamp msg)) (fun d =>
  pyres_bind (attr_strftime strftime_time (timestamp msg)) (fun t =>
  Ok (d ++ "T" ++ t ++ "Z")%string)).

(** Lines 73-76: course, speed and time of the fix. *)
Definition rmc_course (msg : rmc_sentence) : decode unit :=
  c <- eval (course_value msg) ;;
  assign (with_course c).

Definition rmc_speed (msg : rmc_sentence) : decode unit :=
  knots <- eval (knots_value msg) ;;
  assign (with_speed_m_s (speed_value knots)).

Definition rmc_posTime (msg : rmc_sentence) : decode unit :=
  t <- eval (posTime_value msg) ;;
  assign (with_posTime (Some t)).

(** Lines 68-76: the branch of an RMC sentence. *)
Definition rmc_fields (msg : rmc_sentence) : decode unit :=
  rmc_status msg ;;
  rmc_position msg ;;
  rmc_course msg ;;
  rmc_speed msg ;;
  rmc_posTime msg.

(** The right-hand sides of lines 79 and 80:
    [float(msg.altitude) if msg.altitude else 0.0] and
    [int(msg.num_sats) if msg.num_sats else None]. *)
Definition alt_value (msg : gga_sentence) : pyres float :=
  if attr_truthy (altitude msg)
  then attr_float (altitude msg)
  else Ok PyFloat.zero.

Definition sats_value (msg : gga_sentence) : pyres (option Z) :=
  if PyStr.truthy (num_sats msg)
  then pyres_bind (int_of_string (num_sats msg)) (fun z => Ok (Some z))
  else Ok None.

(** Lines 79-80: the branch of a GGA sentence. *)
Definition gga_fields (msg : gga_sentence) : decode unit :=
  a <- eval (alt_value msg) ;;
  assign (with_alt (Some a)) ;;
  n <- eval (sats_value msg) ;;
  assign (with_sats n).

(** Lines 52-80: what the [try] block does with the line it read. *)
Definition decode_line (line : string) : decode unit :=
  if negb (PyStr.starts_with_dollar line) then skip
  else
    gsa_fields line ;;
    msg <- eval (pynmea2_parse line) ;;
    match msg with
    | RMC m => rmc_fields m
    | GGA m => gga_fields m
    | OtherSentence => skip
    end.

(** Lines 50-83: one iteration of the loop. *)
Definition read_and_decode (r : serial_read) : decode unit :=
  match r with
  | ReadFailed => eval Raise
  | Bytes b => decode_line (line_of b)
  end.

(** [except Exception: continue]: whatever the iteration did, the loop goes
    on with the dictionary as the iteration left it. *)
Definition iteration (g : gps_data) (r : serial_read) : gps_data :=
  snd (read_and_decode r g).

(** [parse_gps(ser)]: [now] is the clock at entry and [reads] are the
    results of the calls to [ser.readline()] made before the five seconds
    of the window have passed. *)
Definition parse_gps (now : string) (reads : list serial_read) : gps_data :=
  fold_left iteration reads (initial_gps_data now).

End Decoder.

(** ** [create_aff_feature] *)

Module AFF.

Record properties : Type := mk_properties {
  rpt : string;
  esn : string;
  unitId : string;
  cog : Z;
  spd : Z;
  src : string;
  fix_ : string;
  pdop : option float;
  posTime : option string;
  dataCtrTime : string;
  ctrId : string;
  event_code : Z;
  event_type : string;
  extra_data : string
}.

Record geometry : Type := mk_geometry {
  geometry_type : string;
  coordinates : list (option float)
}.

Record feature : Type := mk_feature {
  feature_type : string;
  feature_properties : properties;
  feature_geometry : geometry
}.

End AFF.

(** [int(v)] of the value stored under ['course']. *)
Definition int_of_number (v : number) : pyres Z :=
  match v with
  | NInt z => Ok z
  | NFloat f => PyFloat.to_int f
  end.

(** Lines 87-110.  The two calls of [int] are the only expressions that can
    raise. *)
Definition create_aff_feature (gps : gps_data) (imei : string) (event_code : Z)
    (event_type extra_data : string) : pyres AFF.feature :=
  pyres_bind (int_of_number (course gps)) (fun cog =>
  pyres_bind (PyFloat.to_int (speed_m_s gps)) (fun spd =>
  Ok {| AFF.feature_type := "Feature";
        AFF.feature_properties :=
          {| AFF.rpt := "pos";
             AFF.esn := imei;
             AFF.unitId := "SKYTRAC_UNIT";
             AFF.cog := cog;
             AFF.spd := spd;
             AFF.src := "GPS";
             AFF.fix_ := fix_type gps;
             AFF.pdop := pdop gps;
             AFF.posTime := posTime gps;
             AFF.dataCtrTime := gps_timestamp gps;
             AFF.ctrId := "skytrac-pi";
             AFF.event_code := event_code;
             AFF.event_type := event_type;
             AFF.extra_data := extra_data |};
        AFF.feature_geometry :=
          {| AFF.geometry_type := "Point";
             AFF.coordinates := [lon gps; lat gps; alt gps] |} |})).

(** ** The main loop *)

(** The keys of [EVENT_CODES]. *)
Inductive event : Type :=
| Position_Report
| POWER_ON
| POWER_OFF
| MOVING
| STOPPED.

Definition event_name (e : event) : string :=
  match e with
  | Position_Report => "Position Report"
  | POWER_ON => "POWER ON"
  | POWER_OFF => "POWER OFF"
  | MOVING => "MOVING"
  | STOPPED => "STOPPED"
  end.

Definition EVENT_CODES (e : event) : Z :=
  match e with
  | Position_Report => 0
  | POWER_ON => 1
  | POWER_OFF => 2
  | MOVING => 3
  | STOPPED => 4
  end.

(** The two flags of the main program that make the motion state. *)
Record motion : Type := mk_motion {
  power_on_logged : bool;
  in_motion : bool
}.

Definition uninitialized : motion := mk_motion false false.
Definition stationary : motion := mk_motion true false.
Definition moving : motion := mk_motion true true.

(** [bool(gps['lat'])]: [None] and a zero are falsy. *)
Definition coordinate_truthy (v : option float) : bool :=
  match v with
  | None => false
  | Some f => PyFloat.truthy f
  end.

(** Line 140: [gps['valid'] and gps['lat'] and gps['lon']]. *)
Definition has_fix (gps : gps_data) : bool :=
  valid gps && coordinate_truthy (lat gps) && coordinate_truthy (lon gps).

(** Lines 141-153: the event of a fix that passed line 140, and the flags
    after it. *)
Definition classify (m : motion) (gps : gps_data) : event * motion :=
  if negb (power_on_logged m) then
    (POWER_ON, mk_motion true (PyFloat.gt0 (speed_m_s gps)))
  else if negb (in_motion m) && PyFloat.gt0 (speed_m_s gps) then
    (MOVING, mk_motion (power_on_logged m) true)
  else if in_motion m && PyFloat.eq0 (speed_m_s gps) then
    (STOPPED, mk_motion (power_on_logged m) false)
  else
    (Position_Report, m).

(** Lines 140-155: the event state machine.  It gives the event and its
    code when the fix passes line 140, and the flags after the cycle. *)
Definition event_machine (m : motion) (gps : gps_data) : option (event * Z) * motion :=
  if has_fix gps then
    let '(e, m') := classify m gps in
    (Some (e, EVENT_CODES e), m')
  else (None, m).

(** The events of a run of the machine over the fixes of successive cycles. *)
Fixpoint run_machine (m : motion) (fixes : list gps_data) : list (option (event * Z)) :=
  match fixes with
  | [] => []
  | gps :: rest =>
      let '(out, m') := event_machine m gps in
      out :: run_machine m' rest
  end.

(** The variables of the main program that live across cycles; [features]
    is [geojson_data["features"]]. *)
Record loop_state : Type := mk_loop_state {
  prev_speed : float;
  motion_state : motion;
  features : list AFF.feature
}.

Definition initial_loop_state : loop_state :=
  {| prev_speed := PyFloat.zero; motion_state := uninitialized; features := [] |}.

(** What a cycle hands out: the feature it appended to the document it
    rewrites, or the "No fix" line it prints. *)
Inductive cycle_output : Type :=
| Recorded (f : AFF.feature)
| No_fix.

(** Lines 138-165: one cycle of [while True], given the fix [parse_gps]
    returned.  An exception of [create_aff_feature] is caught by nothing and
    ends the program. *)
Definition cycle (imei : string) (st : loop_state) (gps : gps_data)
    : pyres (loop_state * cycle_output) :=
  match event_machine (motion_state st) gps with
  | (Some (e, code), m') =>
      pyres_bind (create_aff_feature gps imei code (event_name e) "") (fun feature =>
      Ok ({| prev_speed := speed_m_s gps;
             motion_state := m';
             features := features st ++ [feature] |},
          Recorded feature))
  | (None, _) => Ok (st, No_fix)
  end.

(** The cycles of [while True], given the fix [parse_gps] returned in each;
    the loop ends only with an exception. *)
Fixpoint main_loop (imei : string) (st : loop_state) (fixes : list gps_data)
    : pyres loop_state :=
  match fixes with
  | [] => Ok st
  | gps :: rest =>
      match cycle imei st gps with
      | Ok (st', _) => main_loop imei st' rest
      | Raise => Raise
      end
  end.

(** ** [get_imei_mmcli] *)

(** The methods of [str] on the output of [mmcli], a text that has not gone
    through the ASCII decoding of the serial lines.  A character is a code
    point below 256. *)
Module PyText.

(** The characters for which [str.isspace] holds. *)
Definition isspace (c : ascii) : bool :=
  let n := N_of_ascii c in
  ((9 <=? n) && (n <=? 13) || (28 <=? n) && (n <=? 32) || (n =? 133) || (n =? 160))%N.

(** The line boundaries of [str.splitlines]. *)
Definition is_linebreak (c : ascii) : bool :=
  let n := N_of_ascii c in
  ((10 <=? n) && (n <=? 13) || (28 <=? n) && (n <=? 30) || (n =? 133))%N.

Fixpoint lstrip (s : string) : string :=
  match s with
  | EmptyString => EmptyString
  | String c rest => if isspace c then lstrip rest else s
  end.

Fixpoint rstrip (s : string) : string :=
  match s with
  | EmptyString => EmptyString
  | String c rest =>
      match rstrip rest with
      | EmptyString => if isspace c then EmptyString else String c EmptyString
      | r => String c r
      end
  end.

(** [s.strip()]. *)
Definition strip (s : string) : string := rstrip (lstrip s).

(** [s.splitlines()]: a carriage return followed by a line feed is one
    boundary, and a boundary at the end opens no further line. *)
Fixpoint splitlines (s : string) : list string :=
  match s with
  | EmptyString => []
  | String c rest =>
      if is_linebreak c then
        if (N_of_ascii c =? 13)%N then
          match rest with
          | String c' rest' =>
              if (N_of_ascii c' =? 10)%N then EmptyString :: splitlines rest'
              else EmptyString :: splitlines rest
          | EmptyString => [EmptyString]
          end
        else EmptyString :: splitlines rest
      else
        match splitlines rest with
        | [] => [String c EmptyString]
        | hd :: tl => String c hd :: tl
        end
  end.

End PyText.

(** Lines 26-28: the loop over the lines of the output, which returns at
    the first line that contains ['equipment id']. *)
Fixpoint scan_equipment_id (lines : list string) : option string :=
  match lines with
  | [] => None
  | line :: rest =>
      if PyStr.contains "equipment id" line
      then Some (PyText.strip (last (PyStr.split ":"%char line) EmptyString))
      else scan_equipment_id rest
  end.

(** Lines 23-31.  [run] is what [subprocess.run] gives: the text of the
    standard output, or an exception, which the function prints before it
    falls through to the last line. *)
Definition get_imei_mmcli (run : pyres string) : string :=
  match run with
  | Ok stdout =>
      match scan_equipment_id (PyText.splitlines stdout) with
      | Some imei => imei
      | None => "UNKNOWN"
      end
  | Raise => "UNKNOWN"
  end.

(** Lines 113-167: the main program, given the outcome of [mmcli], and for
    each cycle the clock at the entry of [parse_gps] and the reads of its
    window. *)
Definition main_program
    (pynmea2_parse : string -> pyres nmea_sentence)
    (float_of_string : string -> pyres float)
    (int_of_string : string -> pyres Z)
    (run : pyres string) (windows : list (string * list serial_read))
    : pyres loop_state :=
  main_loop (get_imei_mmcli run) initial_loop_state
            (map (fun w => parse_gps pynmea2_parse float_of_string int_of_string (fst w) (snd w))
                 windows).

(** ** Sample sentences

    The theorems below hold for every behaviour of [pynmea2.parse],
    [float] and [int].  To run the decoder on concrete lines, this module
    fixes those three on a few sentences.  The conversions are the ones of
    Python on plain decimal text; they reject any other text, where Python
    also accepts signs, exponents, underscores, blanks, [inf] and [nan],
    none of which occurs in the sentences used here.  [pynmea2_parse] lists,
    sentence by sentence, the attribute values pynmea2 gives. *)
Module Sample.

Definition is_digit (c : ascii) : bool :=
  (48 <=? nat_of_ascii c)%nat && (nat_of_ascii c <=? 57)%nat.

(** The digits of [s] read in base ten onto [acc], with their number added
    to [count]; [None] when a character is not a digit. *)
Fixpoint read_digits (s : string) (acc : Z) (count : nat) : option (Z * nat) :=
  match s with
  | EmptyString => Some (acc, count)
  | String c rest =>
      if is_digit c
      then read_digits rest (10 * acc + (Z.of_nat (nat_of_ascii c) - 48)) (S count)
      else None
  end.

(** [int(s)] on a string of decimal digits. *)
Definition int_of_string (s : string) : pyres Z :=
  match s with
  | EmptyString => Raise
  | _ => match read_digits s 0 0%nat with
         | Some (z, _) => Ok z
         | None => Raise
         end
  end.

(** The part of [s] before the first dot, and the part after it. *)
Fixpoint cut_at_dot (s : string) : string * option string :=
  match s with
  | EmptyString => (EmptyString, None)
  | String c rest =>
      if Ascii.eqb c "."%char then (EmptyString, Some rest)
      else let '(a, b) := cut_at_dot rest in (String c a, b)
  end.

(** [float(s)] on text of the form [-]digits[.digits]. *)
Definition float_of_unsigned (sign : bool) (s : string) : pyres float :=
  let '(ip, fp) := cut_at_dot s in
  let fp := match fp with Some f => f | None => EmptyString end in
  match read_digits (ip ++ fp) 0 0%nat, read_digits fp 0 0%nat with
  | Some (n, S _), Some (_, k) => Ok (PyFloat.of_ratio sign n (Z.to_pos (10 ^ Z.of_nat k)))
  | _, _ => Raise
  end.

Definition float_of_string (s : string) : pyres float :=
  match s with
  | String "-"%char rest => float_of_unsigned true rest
  | _ => float_of_unsigned false s
  end.

(** The degrees-and-minutes conversion of pynmea2:
    [float(d) + float(m) / 60]. *)
Definition degrees (d : Z) (m_num : Z) (m_den : positive) : float :=
  PyFloat.add (PyFloat.lit d 1) (PyFloat.div (PyFloat.lit m_num m_den) (PyFloat.lit 60 1)).

Definition munich_lat : float := degrees 48 7038 1000.
Definition munich_lon : float := degrees 11 31 1.

Definition rmc_with (st : string) (la lo : float) (spd crs : attr float) (sec : Z)
  : rmc_sentence :=
  {| status := st;
     latitude := Ok la;
     longitude := Ok lo;
     true_course := crs;
     spd_over_grnd := spd;
     datestamp := AttrVal (mk_date 1994 3 23);
     timestamp := AttrVal (mk_time 12 35 sec) |}.

(** A valid fix at 22.4 knots. *)
Definition rmc_active : string :=
  "$GPRMC,123519,A,4807.038,N,01131.000,E,022.4,084.4,230394,003.1,W*6A".
(** The same position five seconds later with status F. *)
Definition rmc_status_F : string :=
  "$GPRMC,123524,F,4807.038,N,01131.000,E,022.4,084.4,230394,003.1,W*63".
(** Status A with every position and velocity field empty. *)
Definition rmc_no_position : string :=
  "$GPRMC,123519,A,,,,,,,230394,,*24".
(** Speed and course reported as zero, and not reported. *)
Definition rmc_zero_speed : string :=
  "$GPRMC,123519,A,4807.038,N,01131.000,E,0.0,0.0,230394,003.1,W*66".
Definition rmc_empty_speed : string :=
  "$GPRMC,123519,A,4807.038,N,01131.000,E,,,230394,003.1,W*66".
(** Ten knots. *)
Definition rmc_ten_knots : string :=
  "$GPRMC,123519,A,4807.038,N,01131.000,E,10.0,084.4,230394,003.1,W*5F".
(** A speed field that is not a number. *)
Definition rmc_bad_speed : string :=
  "$GPRMC,123519,A,4807.038,N,01131.000,E,fast,084.4,230394,003.1,W*40".
(** A position on the equator. *)
Definition rmc_equator : string :=
  "$GPRMC,123519,A,0000.000,N,01131.000,E,022.4,084.4,230394,003.1,W*6A".
(** A 3D fix with PDOP 2.5, the same with a wrong checksum, with an empty
    PDOP field, with a PDOP field that is not a number, and cut short. *)
Definition gsa_3d : string :=
  "$GPGSA,A,3,04,05,,09,12,,,24,,,,,2.5,1.3,2.1*39".
Definition gsa_bad_checksum : string :=
  "$GPGSA,A,3,04,05,,09,12,,,24,,,,,2.5,1.3,2.1*00".
Definition gsa_empty_pdop : string :=
  "$GPGSA,A,3,04,05,,09,12,,,24,,,,,,1.3,2.1*10".
Definition gsa_bad_pdop : string :=
  "$GPGSA,A,3,04,05,,09,12,,,24,,,,,high,1.3,2.1*1E".
Definition gsa_short : string :=
  "$GPGSA,A,3,04,05,,09,12,,,24*3D".
(** Altitude 545.4 m, altitude not reported, altitude reported as zero. *)
Definition gga_alt : string :=
  "$GPGGA,123519,4807.038,N,01131.000,E,1,08,0.9,545.4,M,46.9,M,,*47".
Definition gga_empty_alt : string :=
  "$GPGGA,123519,4807.038,N,01131.000,E,1,08,0.9,,M,46.9,M,,*69".
Definition gga_zero_alt : string :=
  "$GPGGA,123519,4807.038,N,01131.000,E,1,08,0.9,0.0,M,46.9,M,,*47".

Definition sentences : list (string * pyres nmea_sentence) :=
  [ (rmc_active,
     Ok (RMC (rmc_with "A" munich_lat munich_lon
                       (AttrVal (PyFloat.lit 224 10)) (AttrVal (PyFloat.lit 844 10)) 19)));
    (rmc_status_F,
     Ok (RMC (rmc_with "F" munich_lat munich_lon
                       (AttrVal (PyFloat.lit 224 10)) (AttrVal (PyFloat.lit 844 10)) 24)));
    (rmc_no_position,
     Ok (RMC (rmc_with "A" PyFloat.zero PyFloat.zero AttrNone AttrNone 19)));
    (rmc_zero_speed,
     Ok (RMC (rmc_with "A" munich_lat munich_lon
                       (AttrVal PyFloat.zero) (AttrVal PyFloat.zero) 19)));
    (rmc_empty_speed,
     Ok (RMC (rmc_with "A" munich_lat munich_lon AttrNone AttrNone 19)));
    (rmc_ten_knots,
     Ok (RMC (rmc_with "A" munich_lat munich_lon
                       (AttrVal (PyFloat.lit 10 1)) (AttrVal (PyFloat.lit 844 10)) 19)));
    (rmc_bad_speed,
     Ok (RMC (rmc_with "A" munich_lat munich_lon
                       (AttrRaw "fast") (AttrVal (PyFloat.lit 844 10)) 19)));
    (rmc_equator,
     Ok (RMC (rmc_with "A" PyFloat.zero munich_lon
                       (AttrVal (PyFloat.lit 224 10)) (AttrVal (PyFloat.lit 844 10)) 19)));
    (gsa_3d, Ok OtherSentence);
    (gsa_bad_checksum, Raise);
    (gsa_empty_pdop, Ok OtherSentence);
    (gsa_bad_pdop, Ok OtherSentence);
    (gsa_short, Ok OtherSentence);
    (gga_alt, Ok (GGA {| altitude := AttrVal (PyFloat.lit 5454 10); num_sats := "08" |}));
    (gga_empty_alt, Ok (GGA {| altitude := AttrNone; num_sats := "08" |}));
    (gga_zero_alt, Ok (GGA {| altitude := AttrVal PyFloat.zero; num_sats := "08" |})) ].

Fixpoint lookup (table : list (string * pyres nmea_sentence)) (line : string)
  : pyres nmea_sentence :=
  match table with
  | [] => Raise
  | (l, r) :: rest => if String.eqb l line then r else lookup rest line
  end.

(** [pynmea2.parse] on the sentences above; a line that is not one of them
    is taken as one pynmea2 rejects. *)
Definition pynmea2_parse (line : string) : pyres nmea_sentence := lookup sentences line.

Definition parse_gps : string -> list serial_read -> gps_data :=
  parse_gps pynmea2_parse float_of_string int_of_string.

Definition decode_line : string -> decode unit :=
  decode_line pynmea2_parse float_of_string int_of_string.

(** The lines as the serial port delivers them. *)
Definition wire (line : string) : serial_read :=
  Bytes (line ++ String (ascii_of_nat 13) (String (ascii_of_nat 10) EmptyString)).

Definition now : string := "2024-05-01T10:00:00.000000Z".

(** A fix with a position and the given speed, for the event machine. *)
Definition fix_at_speed (v : float) : gps_data :=
  with_speed_m_s v
    (with_valid true
       (with_lon (Some munich_lon)
          (with_lat (Some munich_lat) (initial_gps_data now)))).

End Sample.

(** ** Vocabulary of the statements *)

(** The integer [n] is the truncation toward zero of the value stored under
    ['course']. *)
Definition number_truncation (n : Z) (v : number) : Prop :=
  match v with
  | NInt z => n = z
  | NFloat f => PyFloat.truncation_of n f
  end.

Definition number_finite (v : number) : bool :=
  match v with
  | NInt _ => true
  | NFloat f => PyFloat.is_finite f
  end.

(** The values [parse_gps] stores under ['course'] and ['speed_m_s']: the
    initial ones, or the result of [round(_, 1)]. *)
Definition rounded_course (v : number) : Prop :=
  v = NInt 0 \/ exists f, v = NFloat (PyFloat.round1 f).

Definition rounded_speed (x : float) : Prop :=
  exists f, x = PyFloat.round1 f.

(** A property of the dictionary that a computation keeps, whether it
    completes or raises. *)
Definition preserves {A : Type} (I : gps_data -> Prop) (c : decode A) : Prop :=
  forall g, I g -> I (snd (c g)).

(** A property of the dictionary that an assignment keeps. *)
Definition stable (I : gps_data -> Prop) (upd : gps_data -> gps_data) : Prop :=
  forall g, I g -> I (upd g).

(** The coordinates are stored together, and never as zero. *)
Definition coordinates_paired (g : gps_data) : Prop :=
  (lat g = None <-> lon g = None)
  /\ (forall z, lat g = Some z -> PyFloat.truthy z = true)
  /\ (forall z, lon g = Some z -> PyFloat.truthy z = true).

(** An RMC sentence one of whose coordinates is exactly zero. *)
Definition zero_coordinate (m : rmc_sentence) : Prop :=
  (exists la, latitude m = Ok la /\ PyFloat.eq0 la = true)
  \/ (exists lo, longitude m = Ok lo /\ PyFloat.eq0 lo = true).

(** The speeds of the transition scenario. *)
Definition scenario_speeds : list float :=
  [PyFloat.zero; PyFloat.zero; PyFloat.lit 32 10; PyFloat.lit 32 10; PyFloat.zero].

(** The events a run of the machine emitted, in order. *)
Fixpoint emitted (outs : list (option (event * Z))) : list event :=
  match outs with
  | [] => []
  | Some (e, _) :: rest => e :: emitted rest
  | None :: rest => emitted rest
  end.

(** MOVING and STOPPED take turns in a list of events: [state] is what the
    last of them said, when there was one; every other event, POWER ON
    included, leaves it as it is. *)
Fixpoint alternates (state : option bool) (events : list event) : bool :=
  match events with
  | [] => true
  | MOVING :: rest =>
      match state with
      | Some true => false
      | _ => alternates (Some true) rest
      end
  | STOPPED :: rest =>
      match state with
      | Some false => false
      | _ => alternates (Some false) rest
      end
  | _ :: rest => alternates state rest
  end.

(** The feature [f] is the one [create_aff_feature] builds from the fix
    [gps] for one of the events the machine emits. *)
Definition feature_of (imei : string) (gps : gps_data) (f : AFF.feature) : Prop :=
  exists e, e <> POWER_OFF
            /\ create_aff_feature gps imei (EVENT_CODES e) (event_name e) "" = Ok f.

(** The course and the speed of the fix convert to integers. *)
Definition converts (gps : gps_data) : bool :=
  number_finite (course gps) && PyFloat.is_finite (speed_m_s gps).

(** Assignments to the dictionary, gathered: for each key other than the
    capture time, the value the key is set to, if it is set. *)
Record patch : Type := mk_patch {
  p_posTime : option (option string);
  p_lat : option (option float);
  p_lon : option (option float);
  p_alt : option (option float);
  p_course : option number;
  p_speed_m_s : option float;
  p_pdop : option (option float);
  p_fix_type : option string;
  p_valid : option bool;
  p_sats : option (option Z)
}.

Definition pick {A : Type} (new : option A) (old : A) : A :=
  match new with
  | Some v => v
  | None => old
  end.

Definition later {A : Type} (first second : option A) : option A :=
  match second with
  | Some v => Some v
  | None => first
  end.

Definition apply_patch (p : patch) (g : gps_data) : gps_data :=
  mk_gps (gps_timestamp g)
         (pick (p_posTime p) (posTime g))
         (pick (p_lat p) (lat g))
         (pick (p_lon p) (lon g))
         (pick (p_alt p) (alt g))
         (pick (p_course p) (course g))
         (pick (p_speed_m_s p) (speed_m_s g))
         (pick (p_pdop p) (pdop g))
         (pick (p_fix_type p) (fix_type g))
         (pick (p_valid p) (valid g))
         (pick (p_sats p) (sats g)).

Definition no_patch : patch :=
  mk_patch None None None None None None None None None None.

(** The assignments of [p] followed by those of [q]. *)
Definition then_patch (p q : patch) : patch :=
  mk_patch (later (p_posTime p) (p_posTime q))
           (later (p_lat p) (p_lat q))
           (later (p_lon p) (p_lon q))
           (later (p_alt p) (p_alt q))
           (later (p_course p) (p_course q))
           (later (p_speed_m_s p) (p_speed_m_s q))
           (later (p_pdop p) (p_pdop q))
           (later (p_fix_type p) (p_fix_type q))
           (later (p_valid p) (p_valid q))
           (later (p_sats p) (p_sats q)).

(** The computation [c] ends with the result [r] after the assignments of
    [p], whatever the dictionary it starts from. *)
Definition acts_as {A : Type} (c : decode A) (r : pyres A) (p : patch) : Prop :=
  forall g, c g = (r, apply_patch p g).

(** The computation [c] acts as a patch of the group [G]. *)
Definition patches {A : Type} (G : patch -> Prop) (c : decode A) : Prop :=
  exists r p, G p /\ acts_as c r p.

(** The keys each kind of sentence may set. *)
Definition rmc_group (p : patch) : Prop :=
  p_alt p = None /\ p_sats p = None /\ p_pdop p = None /\ p_fix_type p = None.

Definition gga_group (p : patch) : Prop :=
  p_posTime p = None /\ p_lat p = None /\ p_lon p = None /\ p_course p = None
  /\ p_speed_m_s p = None /\ p_valid p = None /\ p_pdop p = None /\ p_fix_type p = None.

Definition gsa_group (p : patch) : Prop :=
  p_posTime p = None /\ p_lat p = None /\ p_lon p = None /\ p_course p = None
  /\ p_speed_m_s p = None /\ p_valid p = None /\ p_alt p = None /\ p_sats p = None.

Definition any_group (p : patch) : Prop := True.

(** The GSA test of lines 55-63 raises on the line. *)
Definition gsa_raises (float_of_string : string -> pyres float) (line : string) : Prop :=
  PyStr.contains "GSA" line = true
  /\ (16 <= List.length (PyStr.split ","%char line))%nat
  /\ pdop_value float_of_string (PyStr.split ","%char line) = Raise.

(** The line gets to the [isinstance] tests with the sentence [msg]. *)
Definition reaches (pynmea2_parse : string -> pyres nmea_sentence)
    (float_of_string : string -> pyres float) (line : string) (msg : nmea_sentence) : Prop :=
  PyStr.starts_with_dollar line = true
  /\ ~ gsa_raises float_of_string line
  /\ pynmea2_parse line = Ok msg.

(** The line carries an RMC sentence with status A. *)
Definition sets_valid (pynmea2_parse : string -> pyres nmea_sentence)
    (float_of_string : string -> pyres float) (line : string) : Prop :=
  exists m, reaches pynmea2_parse float_of_string line (RMC m) /\ status m = "A".

(** The RMC sentence has the position [la], [lo], neither of them zero. *)
Definition position_of (m : rmc_sentence) (la lo : float) : Prop :=
  latitude m = Ok la /\ longitude m = Ok lo
  /\ PyFloat.truthy la = true /\ PyFloat.truthy lo = true.

(** The line carries an RMC sentence with that position. *)
Definition stores_position (pynmea2_parse : string -> pyres nmea_sentence)
    (float_of_string : string -> pyres float) (line : string) (la lo : float) : Prop :=
  exists m, reaches pynmea2_parse float_of_string line (RMC m) /\ position_of m la lo.

(** The bytes of [s] are all ASCII blanks. *)
Fixpoint blank (s : string) : bool :=
  match s with
  | EmptyString => true
  | String c rest => PyStr.isspace c && blank rest
  end.

(** The character [c] occurs in [s]. *)
Fixpoint has_char (c : ascii) (s : string) : bool :=
  match s with
  | EmptyString => false
  | String c' rest => Ascii.eqb c' c || has_char c rest
  end.

(** No character of [s] is a line boundary. *)
Fixpoint one_line (s : string) : bool :=
  match s with
  | EmptyString => true
  | String c rest => negb (PyText.is_linebreak c) && one_line rest
  end.

(** The text made of the given lines, each ended by a line feed. *)
Fixpoint unlines (lines : list string) : string :=
  match lines with
  | [] => EmptyString
  | line :: rest => line ++ String (ascii_of_nat 10) (unlines rest)
  end.

(** * Properties *)

(** ** Floats *)

Module PyFloatFacts.
Import PyFloat.

Lemma den_of_pos (e : Z) : Zpos (den_of e) = 2 ^ (Z.max (- e) 0).
Proof.
  unfold den_of. rewrite Z2Pos.id; [reflexivity|].
  apply Z.pow_pos_nonneg; lia.
Qed.

(** [round_half_even n d] is within one half of [n / d]. *)
Lemma round_half_even_nearest (n : Z) (d : positive) :
  2 * Z.abs (n - round_half_even n d * Zpos d) <= Zpos d.
Proof.
  unfold round_half_even.
  pose proof (Z.div_mod n (Zpos d) ltac:(lia)) as Hdm.
  pose proof (Z.mod_pos_bound n (Zpos d) ltac:(lia)) as Hr.
  set (q := n / Zpos d) in *. set (r := n mod Zpos d) in *.
  destruct (2 * r ?= Zpos d)%Z eqn:Hc.
  - apply Z.compare_eq in Hc. destruct (Z.even q); lia.
  - rewrite Z.compare_lt_iff in Hc. lia.
  - rewrite Z.compare_gt_iff in Hc. lia.
Qed.

(** [round(x, 1)] of a finite [x] is the float nearest to [k / 10] for an
    integer [k] nearest to ten times [x]. *)
Lemma round1_nearest (s : bool) (m : positive) (e : Z) :
  exists k, round1 (S754_finite s m e) = of_ratio s k 10 /\ nearest_tenths k m e.
Proof.
  exists (round_half_even (10 * num_of m e) (den_of e)). split; [reflexivity|].
  apply round_half_even_nearest.
Qed.

Lemma shiftl_magnitude (m : positive) (e : Z) :
  Z.shiftl (Zpos m) e * Zpos (den_of e) <= num_of m e
    < (Z.shiftl (Zpos m) e + 1) * Zpos (den_of e).
Proof.
  rewrite den_of_pos. unfold num_of.
  destruct (Z.le_gt_cases 0 e) as [He|He].
  - rewrite Z.shiftl_mul_pow2 by assumption.
    rewrite (Z.max_l e 0), (Z.max_r (- e) 0) by lia.
    change (2 ^ 0) with 1. lia.
  - assert (Hk : exists k, 0 < k /\ e = - k) by (exists (- e); lia).
    destruct Hk as [k [Hk ->]].
    rewrite Z.shiftl_opp_r, Z.shiftr_div_pow2 by lia.
    rewrite Z.opp_involutive.
    rewrite (Z.max_r (- k) 0), (Z.max_l k 0) by lia.
    change (2 ^ 0) with 1.
    assert (Hp : 0 < 2 ^ k) by (apply Z.pow_pos_nonneg; lia).
    pose proof (Z.div_mod (Zpos m) (2 ^ k) ltac:(lia)) as Hdm.
    pose proof (Z.mod_pos_bound (Zpos m) (2 ^ k) Hp) as Hr.
    set (q := Zpos m / 2 ^ k) in *.
    set (r := Zpos m mod 2 ^ k) in *.
    set (P := 2 ^ k) in *.
    lia.
Qed.

Lemma shiftl_nonneg (m : positive) (e : Z) : 0 <= Z.shiftl (Zpos m) e.
Proof. apply Z.shiftl_nonneg. lia. Qed.

(** [int(x)] truncates toward zero. *)
Lemma to_int_truncation (x : float) (n : Z) :
  to_int x = Ok n -> truncation_of n x.
Proof.
  destruct x as [s|s| |s m e]; simpl; intros H; inversion H; subst; clear H.
  - reflexivity.
  - pose proof (shiftl_nonneg m e) as Hn.
    pose proof (shiftl_magnitude m e) as Hm.
    destruct s; simpl.
    + rewrite Z.abs_opp, Z.abs_eq by assumption. split; [exact Hm | lia].
    + rewrite Z.abs_eq by assumption. split; [exact Hm | lia].
Qed.

Lemma to_int_finite (x : float) :
  is_finite x = true -> exists n, to_int x = Ok n.
Proof. destruct x; simpl; intros H; try discriminate; eexists; reflexivity. Qed.

(** A float that equals zero is falsy, and the other way round. *)
Lemma truthy_false_iff (x : float) : truthy x = false <-> eq0 x = true.
Proof. unfold truthy. destruct (eq0 x); simpl; split; congruence. Qed.

(** No float is both greater than zero and equal to zero. *)
Lemma gt0_not_eq0 (x : float) : gt0 x = true -> eq0 x = false.
Proof.
  destruct x as [s|s| |s m e]; try destruct s;
    cbv [gt0 eq0 zero SFltb SFeqb SFcompare]; congruence.
Qed.

End PyFloatFacts.

(** ** The decoding monad *)

Section DecodeMonad.

Context {A B : Type}.
Variable I : gps_data -> Prop.

Lemma preserves_ret (a : A) : preserves I (ret a).
Proof. intros g Hg. exact Hg. Qed.

Lemma preserves_eval (r : pyres A) : preserves I (eval r).
Proof. intros g Hg. exact Hg. Qed.

Lemma preserves_assign (upd : gps_data -> gps_data) :
  stable I upd -> preserves I (assign upd).
Proof. intros Hs g Hg. apply Hs, Hg. Qed.

Lemma preserves_bind (c : decode A) (k : A -> decode B) :
  preserves I c -> (forall a, preserves I (k a)) -> preserves I (bind c k).
Proof.
  intros Hc Hk g Hg. unfold bind.
  specialize (Hc g Hg). destruct (c g) as [[a|] g']; simpl in *.
  - apply Hk, Hc.
  - exact Hc.
Qed.

Lemma preserves_if (b : bool) (c1 c2 : decode A) :
  preserves I c1 -> preserves I c2 -> preserves I (if b then c1 else c2).
Proof. destruct b; auto. Qed.

End DecodeMonad.

Lemma preserves_skip (I : gps_data -> Prop) : preserves I skip.
Proof. apply preserves_ret. Qed.

(** Splits a goal [preserves I c] along the binds and the tests of [c]. *)
Ltac preserve :=
  repeat first
    [ apply preserves_bind; [| intro]
    | apply preserves_if
    | apply preserves_skip
    | apply preserves_ret
    | apply preserves_eval
    | match goal with
      | |- preserves ?I (assign ?upd) => apply (preserves_assign I upd)
      end ].

(** ** The decoder *)

Section DecoderFacts.

Variable pynmea2_parse : string -> pyres nmea_sentence.
Variable float_of_string : string -> pyres float.
Variable int_of_string : string -> pyres Z.


(** *** What each step can do to the dictionary *)

Lemma gsa_fields_preserves (I : gps_data -> Prop) (line : string) :
  (forall p, stable I (with_pdop p)) ->
  (forall s, stable I (with_fix_type s)) ->
  preserves I (gsa_fields float_of_string line).
Proof. intros Hp Hf. unfold gsa_fields. preserve; auto. Qed.

Lemma rmc_status_preserves (I : gps_data -> Prop) (m : rmc_sentence) :
  (status m = "A" -> stable I (with_valid true)) ->
  preserves I (rmc_status m).
Proof.
  intros Hv. unfold rmc_status.
  destruct (String.eqb_spec (status m) "A") as [He|He]; preserve. auto.
Qed.

(** The position step stores both coordinates, both truthy, or nothing. *)
Lemma rmc_position_cases (m : rmc_sentence) (g : gps_data) :
  snd (rmc_position m g) = g
  \/ exists la lo,
       latitude m = Ok la /\ longitude m = Ok lo
       /\ PyFloat.truthy la = true /\ PyFloat.truthy lo = true
       /\ snd (rmc_position m g) = with_lon (Some lo) (with_lat (Some la) g).
Proof.
  unfold rmc_position, bind, eval, ret, assign, skip.
  destruct (latitude m) as [la|] eqn:Hla; simpl; [|left; reflexivity].
  destruct (PyFloat.truthy la) eqn:Tla; simpl; [|left; reflexivity].
  destruct (longitude m) as [lo|] eqn:Hlo; simpl; [|left; reflexivity].
  destruct (PyFloat.truthy lo) eqn:Tlo; simpl; [|left; reflexivity].
  right. exists la, lo. auto.
Qed.

Lemma rmc_position_preserves (I : gps_data -> Prop) (m : rmc_sentence) :
  (forall la lo, latitude m = Ok la -> longitude m = Ok lo ->
     PyFloat.truthy la = true -> PyFloat.truthy lo = true ->
     stable I (fun g => with_lon (Some lo) (with_lat (Some la) g))) ->
  preserves I (rmc_position m).
Proof.
  intros H g Hg.
  destruct (rmc_position_cases m g) as [-> | (la & lo & Hla & Hlo & Tla & Tlo & ->)].
  - exact Hg.
  - apply (H la lo); assumption.
Qed.

Lemma rmc_course_preserves (I : gps_data -> Prop) (m : rmc_sentence) :
  (forall c, rounded_course c -> stable I (with_course c)) ->
  preserves I (rmc_course float_of_string m).
Proof.
  intros H g Hg. unfold rmc_course, bind, eval, assign, course_value.
  destruct (attr_truthy (true_course m)).
  - destruct (attr_float float_of_string (true_course m)) as [f|]; simpl.
    + apply H; [right; exists f; reflexivity | exact Hg].
    + exact Hg.
  - simpl. apply H; [left; reflexivity | exact Hg].
Qed.

Lemma rmc_speed_preserves (I : gps_data -> Prop) (m : rmc_sentence) :
  (forall x, rounded_speed x -> stable I (with_speed_m_s x)) ->
  preserves I (rmc_speed float_of_string m).
Proof.
  intros H. unfold rmc_speed, speed_value. preserve.
  apply H. eexists; reflexivity.
Qed.

Lemma rmc_posTime_preserves (I : gps_data -> Prop) (m : rmc_sentence) :
  (forall t, stable I (with_posTime t)) ->
  preserves I (rmc_posTime m).
Proof. intros H. unfold rmc_posTime. preserve. apply H. Qed.

Lemma rmc_fields_preserves (I : gps_data -> Prop) (m : rmc_sentence) :
  preserves I (rmc_status m) ->
  preserves I (rmc_position m) ->
  (forall c, rounded_course c -> stable I (with_course c)) ->
  (forall x, rounded_speed x -> stable I (with_speed_m_s x)) ->
  (forall t, stable I (with_posTime t)) ->
  preserves I (rmc_fields float_of_string m).
Proof.
  intros Hs Hp Hc Hv Ht. unfold rmc_fields.
  apply preserves_bind; [exact Hs | intros _].
  apply preserves_bind; [exact Hp | intros _].
  apply preserves_bind; [apply rmc_course_preserves, Hc | intros _].
  apply preserves_bind; [apply rmc_speed_preserves, Hv | intros _].
  apply rmc_posTime_preserves, Ht.
Qed.

Lemma gga_fields_preserves (I : gps_data -> Prop) (m : gga_sentence) :
  (forall a, stable I (with_alt a)) ->
  (forall n, stable I (with_sats n)) ->
  preserves I (gga_fields float_of_string int_of_string m).
Proof. intros Ha Hn. unfold gga_fields. preserve; auto. Qed.

Lemma decode_line_preserves (I : gps_data -> Prop) (line : string) :
  preserves I (gsa_fields float_of_string line) ->
  (forall m, pynmea2_parse line = Ok (RMC m) -> preserves I (rmc_fields float_of_string m)) ->
  (forall m, pynmea2_parse line = Ok (GGA m) -> preserves I (gga_fields float_of_string int_of_string m)) ->
  preserves I (decode_line pynmea2_parse float_of_string int_of_string line).
Proof.
  intros Hg Hr Ha. unfold decode_line.
  apply preserves_if; [apply preserves_skip|].
  apply preserves_bind; [exact Hg | intros _].
  intros g Ig. unfold bind, eval.
  destruct (pynmea2_parse line) as [[m|m|]|] eqn:Hp; simpl.
  - apply Hr; [reflexivity | exact Ig].
  - apply Ha; [reflexivity | exact Ig].
  - exact Ig.
  - exact Ig.
Qed.

Lemma window_invariant (I : gps_data -> Prop) (reads : list serial_read) (g : gps_data) :
  I g ->
  (forall b, In (Bytes b) reads ->
     preserves I (decode_line pynmea2_parse float_of_string int_of_string (line_of b))) ->
  I (fold_left (iteration pynmea2_parse float_of_string int_of_string) reads g).
Proof.
  revert g. induction reads as [|r reads IH]; intros g Ig Hstep; simpl.
  - exact Ig.
  - apply IH.
    + destruct r as [b|]; simpl.
      * apply (Hstep b); [left; reflexivity | exact Ig].
      * exact Ig.
    + intros b Hb. apply Hstep. right. exact Hb.
Qed.

Lemma parse_gps_invariant (I : gps_data -> Prop) (now : string) (reads : list serial_read) :
  I (initial_gps_data now) ->
  (forall b, In (Bytes b) reads ->
     preserves I (decode_line pynmea2_parse float_of_string int_of_string (line_of b))) ->
  I (parse_gps pynmea2_parse float_of_string int_of_string now reads).
Proof. apply window_invariant. Qed.

(** *** What each step computes *)

Lemma rmc_status_run (m : rmc_sentence) (g : gps_data) :
  rmc_status m g = (Ok tt, if String.eqb (status m) "A" then with_valid true g else g).
Proof. unfold rmc_status. destruct (String.eqb (status m) "A"); reflexivity. Qed.

Lemma rmc_course_run (m : rmc_sentence) (g : gps_data) :
  rmc_course float_of_string m g
  = match course_value float_of_string m with
    | Ok c => (Ok tt, with_course c g)
    | Raise => (Raise, g)
    end.
Proof.
  unfold rmc_course, bind, eval, assign.
  destruct (course_value float_of_string m); reflexivity.
Qed.

Lemma rmc_speed_run (m : rmc_sentence) (g : gps_data) :
  rmc_speed float_of_string m g
  = match knots_value float_of_string m with
    | Ok k => (Ok tt, with_speed_m_s (speed_value k) g)
    | Raise => (Raise, g)
    end.
Proof.
  unfold rmc_speed, bind, eval, assign.
  destruct (knots_value float_of_string m); reflexivity.
Qed.

Lemma rmc_posTime_run (m : rmc_sentence) (g : gps_data) :
  rmc_posTime m g
  = match posTime_value m with
    | Ok t => (Ok tt, with_posTime (Some t) g)
    | Raise => (Raise, g)
    end.
Proof.
  unfold rmc_posTime, bind, eval, assign.
  destruct (posTime_value m); reflexivity.
Qed.

(** Whether the position step raises depends on the sentence alone. *)
Lemma rmc_position_outcome (m : rmc_sentence) (g g' : gps_data) :
  fst (rmc_position m g) = fst (rmc_position m g').
Proof.
  unfold rmc_position, bind, eval, ret, assign, skip.
  destruct (latitude m) as [la|]; simpl; [|reflexivity].
  destruct (PyFloat.truthy la); simpl; [|reflexivity].
  destruct (longitude m) as [lo|]; simpl; [|reflexivity].
  destruct (PyFloat.truthy lo); reflexivity.
Qed.

(** A completed RMC branch leaves the course, the speed and the time of
    its own sentence. *)
Lemma rmc_fields_completed (m : rmc_sentence) (g : gps_data) :
  fst (rmc_fields float_of_string m g) = Ok tt ->
  exists c k t,
    course_value float_of_string m = Ok c
    /\ knots_value float_of_string m = Ok k
    /\ posTime_value m = Ok t
    /\ course (snd (rmc_fields float_of_string m g)) = c
    /\ speed_m_s (snd (rmc_fields float_of_string m g)) = speed_value k
    /\ posTime (snd (rmc_fields float_of_string m g)) = Some t.
Proof.
  unfold rmc_fields, bind. rewrite rmc_status_run.
  set (g1 := if String.eqb (status m) "A" then with_valid true g else g).
  destruct (rmc_position m g1) as [[[]|] g2]; simpl; [|discriminate].
  rewrite rmc_course_run.
  destruct (course_value float_of_string m) as [c|]; simpl; [|discriminate].
  rewrite rmc_speed_run.
  destruct (knots_value float_of_string m) as [k|]; simpl; [|discriminate].
  rewrite rmc_posTime_run.
  destruct (posTime_value m) as [t|]; simpl; [|discriminate].
  intros _. exists c, k, t. repeat split; reflexivity.
Qed.

Lemma rmc_fields_outcome (m : rmc_sentence) (g g' : gps_data) :
  fst (rmc_fields float_of_string m g) = fst (rmc_fields float_of_string m g').
Proof.
  unfold rmc_fields, bind. rewrite !rmc_status_run.
  set (g1 := if String.eqb (status m) "A" then with_valid true g else g).
  set (g1' := if String.eqb (status m) "A" then with_valid true g' else g').
  pose proof (rmc_position_outcome m g1 g1') as Hp.
  destruct (rmc_position m g1) as [[[]|] g2], (rmc_position m g1') as [[[]|] g2'];
    simpl in Hp; try discriminate; simpl; [|reflexivity].
  rewrite !rmc_course_run.
  destruct (course_value float_of_string m) as [c|]; simpl; [|reflexivity].
  rewrite !rmc_speed_run.
  destruct (knots_value float_of_string m) as [k|]; simpl; [|reflexivity].
  rewrite !rmc_posTime_run.
  destruct (posTime_value m) as [t|]; reflexivity.
Qed.

(** The GSA test on a line that has its sixteen fields. *)
Lemma gsa_fields_run (line : string) (g : gps_data) :
  PyStr.contains "GSA" line = true ->
  (16 <= List.length (PyStr.split ","%char line))%nat ->
  gsa_fields float_of_string line g
  = match pdop_value float_of_string (PyStr.split ","%char line) with
    | Ok p =>
        (Ok tt,
         if String.eqb (PyStr.item (PyStr.split ","%char line) 2) "2"
         then with_fix_type "2D" (with_pdop p g)
         else if String.eqb (PyStr.item (PyStr.split ","%char line) 2) "3"
              then with_fix_type "3D" (with_pdop p g)
              else with_pdop p g)
    | Raise => (Raise, g)
    end.
Proof.
  intros Hc Hl. unfold gsa_fields. rewrite Hc.
  apply Nat.leb_le in Hl. rewrite Hl.
  unfold bind, eval, assign, skip, ret.
  destruct (pdop_value float_of_string (PyStr.split ","%char line)) as [p|]; [|reflexivity].
  destruct (String.eqb (PyStr.item (PyStr.split ","%char line) 2) "2"); [reflexivity|].
  destruct (String.eqb (PyStr.item (PyStr.split ","%char line) 2) "3"); reflexivity.
Qed.

(** The GSA test on a line without the marker or without its fields. *)
Lemma gsa_fields_skipped (line : string) (g : gps_data) :
  PyStr.contains "GSA" line = false
  \/ (List.length (PyStr.split ","%char line) < 16)%nat ->
  gsa_fields float_of_string line g = (Ok tt, g).
Proof.
  intros H. unfold gsa_fields.
  destruct (PyStr.contains "GSA" line); [|reflexivity].
  destruct H as [H|H]; [discriminate|].
  apply Nat.leb_gt in H. rewrite H. reflexivity.
Qed.

(** The sentence branches do not touch the dilution and the fix type. *)
Lemma sentence_keeps_dop (line : string) (p : option float) (t : string) (g : gps_data) :
  pdop g = p /\ fix_type g = t ->
  let g' := snd (bind (eval (pynmea2_parse line))
                      (fun msg => match msg with
                                  | RMC m => rmc_fields float_of_string m
                                  | GGA m => gga_fields float_of_string int_of_string m
                                  | OtherSentence => skip
                                  end) g) in
  pdop g' = p /\ fix_type g' = t.
Proof.
  intros Hg. unfold bind, eval.
  destruct (pynmea2_parse line) as [[m|m|]|]; simpl; try exact Hg.
  - apply (rmc_fields_preserves (fun g => pdop g = p /\ fix_type g = t)); try exact Hg.
    + apply rmc_status_preserves. intros _ g0 H0. exact H0.
    + apply rmc_position_preserves. intros la lo _ _ _ _ g0 H0. exact H0.
    + intros c _ g0 H0. exact H0.
    + intros x _ g0 H0. exact H0.
    + intros t0 g0 H0. exact H0.
  - apply (gga_fields_preserves (fun g => pdop g = p /\ fix_type g = t)); try exact Hg.
    + intros a g0 H0. exact H0.
    + intros n g0 H0. exact H0.
Qed.

End DecoderFacts.

(** ** The event state machine *)

Section EventMachine.

Variable gps : gps_data.

Lemma classify_first (m : motion) :
  power_on_logged m = false ->
  classify m gps = (POWER_ON, mk_motion true (PyFloat.gt0 (speed_m_s gps))).
Proof. unfold classify. intros ->. reflexivity. Qed.

Lemma classify_stationary_speed :
  PyFloat.gt0 (speed_m_s gps) = true -> classify stationary gps = (MOVING, moving).
Proof. unfold classify. simpl. intros ->. reflexivity. Qed.

Lemma classify_stationary_still :
  PyFloat.eq0 (speed_m_s gps) = true -> classify stationary gps = (Position_Report, stationary).
Proof.
  unfold classify. simpl. intros H.
  destruct (PyFloat.gt0 (speed_m_s gps)) eqn:Hg; [|reflexivity].
  apply PyFloatFacts.gt0_not_eq0 in Hg. congruence.
Qed.

Lemma classify_moving_still :
  PyFloat.eq0 (speed_m_s gps) = true -> classify moving gps = (STOPPED, stationary).
Proof. unfold classify. simpl. intros ->. reflexivity. Qed.

Lemma classify_moving_speed :
  PyFloat.gt0 (speed_m_s gps) = true -> classify moving gps = (Position_Report, moving).
Proof.
  unfold classify. simpl. intros H.
  apply PyFloatFacts.gt0_not_eq0 in H. rewrite H. reflexivity.
Qed.

Lemma classify_not_power_off (m : motion) : fst (classify m gps) <> POWER_OFF.
Proof.
  unfold classify.
  destruct (negb (power_on_logged m)); [simpl; discriminate|].
  destruct (negb (in_motion m) && PyFloat.gt0 (speed_m_s gps))%bool; [simpl; discriminate|].
  destruct (in_motion m && PyFloat.eq0 (speed_m_s gps))%bool; simpl; discriminate.
Qed.

Lemma event_machine_fix (m : motion) :
  has_fix gps = true ->
  event_machine m gps
  = (Some (fst (classify m gps), EVENT_CODES (fst (classify m gps))), snd (classify m gps)).
Proof. unfold event_machine. intros ->. destruct (classify m gps). reflexivity. Qed.

Lemma event_machine_no_fix (m : motion) :
  has_fix gps = false -> event_machine m gps = (None, m).
Proof. unfold event_machine. intros ->. reflexivity. Qed.

Lemma no_fix_when (H : valid gps = false \/ lat gps = None \/ lon gps = None) :
  has_fix gps = false.
Proof.
  unfold has_fix. destruct H as [H | [H | H]]; rewrite H; simpl.
  - reflexivity.
  - rewrite andb_false_r. reflexivity.
  - apply andb_false_r.
Qed.

End EventMachine.

(** ** The fix of a window *)

Section WindowClaims.

Variable pynmea2_parse : string -> pyres nmea_sentence.
Variable float_of_string : string -> pyres float.
Variable int_of_string : string -> pyres Z.

(** C1, amended.  In the fix of every window the latitude and the
    longitude are both present or both absent, and a stored coordinate is
    never zero.  (The valid flag says nothing about them: line 140 tests
    the coordinates next to the flag.) *)
Theorem coordinates_stored_together (now : string) (reads : list serial_read) :
  coordinates_paired (parse_gps pynmea2_parse float_of_string int_of_string now reads).
Proof.
  apply parse_gps_invariant.
  - unfold coordinates_paired. simpl. repeat split; intros; discriminate.
  - intros b _. apply decode_line_preserves.
    + apply gsa_fields_preserves; intros ? g Hg; exact Hg.
    + intros m _. apply rmc_fields_preserves.
      * apply rmc_status_preserves. intros _ g Hg. exact Hg.
      * apply rmc_position_preserves. intros la lo _ _ Tla Tlo g _.
        unfold coordinates_paired. simpl.
        split; [split; discriminate|].
        split; intros z Hz; inversion Hz; subst; assumption.
      * intros c _ g Hg. exact Hg.
      * intros x _ g Hg. exact Hg.
      * intros t g Hg. exact Hg.
    + intros m _. apply gga_fields_preserves; intros ? g Hg; exact Hg.
Qed.

Lemma valid_stays_false (line : string) :
  (forall m, pynmea2_parse line = Ok (RMC m) -> status m <> "A") ->
  preserves (fun g => valid g = false)
            (decode_line pynmea2_parse float_of_string int_of_string line).
Proof.
  intros Hs. apply decode_line_preserves.
  - apply gsa_fields_preserves; intros ? g Hg; exact Hg.
  - intros m Hm. apply rmc_fields_preserves.
    + apply rmc_status_preserves. intros HA. destruct (Hs m Hm HA).
    + apply rmc_position_preserves. intros la lo _ _ _ _ g Hg. exact Hg.
    + intros c _ g Hg. exact Hg.
    + intros x _ g Hg. exact Hg.
    + intros t g Hg. exact Hg.
  - intros m _. apply gga_fields_preserves; intros ? g Hg; exact Hg.
Qed.

Lemma valid_stays_true (line : string) :
  preserves (fun g => valid g = true)
            (decode_line pynmea2_parse float_of_string int_of_string line).
Proof.
  apply decode_line_preserves.
  - apply gsa_fields_preserves; intros ? g Hg; exact Hg.
  - intros m _. apply rmc_fields_preserves.
    + apply rmc_status_preserves. intros _ g _. reflexivity.
    + apply rmc_position_preserves. intros la lo _ _ _ _ g Hg. exact Hg.
    + intros c _ g Hg. exact Hg.
    + intros x _ g Hg. exact Hg.
    + intros t g Hg. exact Hg.
  - intros m _. apply gga_fields_preserves; intros ? g Hg; exact Hg.
Qed.

(** C3, amended.  The fix of a window has valid=false when no RMC sentence
    of the window has status A, whatever else the window holds; once a
    sentence has set the flag, no later sentence of the window resets it.
    A later RMC sentence whose branch completes overwrites the course, the
    speed and the time of the fix with its own. *)
Theorem valid_needs_status_A :
  (forall now reads,
     (forall b m, In (Bytes b) reads ->
        pynmea2_parse (line_of b) = Ok (RMC m) -> status m <> "A") ->
     valid (parse_gps pynmea2_parse float_of_string int_of_string now reads) = false)
  /\ (forall now reads more,
       valid (parse_gps pynmea2_parse float_of_string int_of_string now reads) = true ->
       valid (parse_gps pynmea2_parse float_of_string int_of_string now (reads ++ more))
       = true)
  /\ (forall m g g',
       fst (rmc_fields float_of_string m g) = Ok tt ->
       course (snd (rmc_fields float_of_string m g))
       = course (snd (rmc_fields float_of_string m g'))
       /\ speed_m_s (snd (rmc_fields float_of_string m g))
          = speed_m_s (snd (rmc_fields float_of_string m g'))
       /\ posTime (snd (rmc_fields float_of_string m g))
          = posTime (snd (rmc_fields float_of_string m g'))).
Proof.
  refine (conj _ (conj _ _)).
  - intros now reads H.
    apply (parse_gps_invariant _ _ _ (fun g => valid g = false)); [reflexivity|].
    intros b Hb. apply valid_stays_false. intros m Hm. exact (H b m Hb Hm).
  - intros now reads more H. unfold parse_gps. rewrite fold_left_app.
    apply (window_invariant _ _ _ (fun g => valid g = true)); [exact H|].
    intros b _. apply valid_stays_true.
  - intros m g g' H.
    assert (H' : fst (rmc_fields float_of_string m g') = Ok tt)
      by (rewrite <- H; apply rmc_fields_outcome).
    destruct (rmc_fields_completed _ m g H) as (c & k & t & Hc & Hk & Ht & -> & -> & ->).
    destruct (rmc_fields_completed _ m g' H') as (c' & k' & t' & Hc' & Hk' & Ht' & -> & -> & ->).
    rewrite Hc in Hc'. rewrite Hk in Hk'. rewrite Ht in Ht'.
    inversion Hc'. inversion Hk'. inversion Ht'. repeat split; reflexivity.
Qed.

Lemma zero_coordinate_not_stored (m : rmc_sentence) (la lo : float) :
  zero_coordinate m ->
  latitude m = Ok la -> longitude m = Ok lo ->
  PyFloat.truthy la = true -> PyFloat.truthy lo = true -> False.
Proof.
  intros [(z & Hz & Ez) | (z & Hz & Ez)] Hla Hlo Tla Tlo.
  - rewrite Hla in Hz. inversion Hz; subst.
    apply PyFloatFacts.truthy_false_iff in Ez. congruence.
  - rewrite Hlo in Hz. inversion Hz; subst.
    apply PyFloatFacts.truthy_false_iff in Ez. congruence.
Qed.

Lemma zero_coordinate_keeps (line : string) (a o : option float) :
  (forall m, pynmea2_parse line = Ok (RMC m) -> zero_coordinate m) ->
  preserves (fun g => lat g = a /\ lon g = o)
            (decode_line pynmea2_parse float_of_string int_of_string line).
Proof.
  intros Hz. apply decode_line_preserves.
  - apply gsa_fields_preserves; intros ? g Hg; exact Hg.
  - intros m Hm. apply rmc_fields_preserves.
    + apply rmc_status_preserves. intros _ g Hg. exact Hg.
    + apply rmc_position_preserves. intros la lo Hla Hlo Tla Tlo g _.
      destruct (zero_coordinate_not_stored m la lo (Hz m Hm) Hla Hlo Tla Tlo).
    + intros c _ g Hg. exact Hg.
    + intros x _ g Hg. exact Hg.
    + intros t g Hg. exact Hg.
  - intros m _. apply gga_fields_preserves; intros ? g Hg; exact Hg.
Qed.

Lemma zero_coordinate_no_fix (g : gps_data) (z : float) :
  lat g = Some z \/ lon g = Some z -> PyFloat.eq0 z = true -> has_fix g = false.
Proof.
  intros H Hz. apply PyFloatFacts.truthy_false_iff in Hz.
  unfold has_fix. destruct H as [H|H]; rewrite H; simpl; rewrite Hz.
  - rewrite andb_false_r. reflexivity.
  - apply andb_false_r.
Qed.

(** C9, amended.  An RMC sentence whose latitude or longitude is exactly
    zero stores neither coordinate: the line it comes on leaves the latitude
    and the longitude of the fix as they were, so that a position stored by
    another sentence of the window stays.  The fix of a window whose RMC
    sentences are all of that kind has no coordinates, and the cycle
    prints "No fix" for it; so it does for any fix whose stored latitude or
    longitude is zero, whatever the valid flag. *)
Theorem zero_coordinate_is_absent :
  (forall line m g,
     pynmea2_parse line = Ok (RMC m) -> zero_coordinate m ->
     lat (snd (decode_line pynmea2_parse float_of_string int_of_string line g)) = lat g
     /\ lon (snd (decode_line pynmea2_parse float_of_string int_of_string line g)) = lon g)
  /\ (forall now reads imei st,
       (forall b m, In (Bytes b) reads ->
          pynmea2_parse (line_of b) = Ok (RMC m) -> zero_coordinate m) ->
       lat (parse_gps pynmea2_parse float_of_string int_of_string now reads) = None
       /\ lon (parse_gps pynmea2_parse float_of_string int_of_string now reads) = None
       /\ cycle imei st (parse_gps pynmea2_parse float_of_string int_of_string now reads)
          = Ok (st, No_fix))
  /\ (forall imei st g z,
       lat g = Some z \/ lon g = Some z -> PyFloat.eq0 z = true ->
       cycle imei st g = Ok (st, No_fix)).
Proof.
  refine (conj _ (conj _ _)).
  - intros line m g Hm Hz.
    apply (zero_coordinate_keeps line (lat g) (lon g)); [|split; reflexivity].
    intros m' Hm'. rewrite Hm in Hm'. inversion Hm'; subst. exact Hz.
  - intros now reads imei st H.
    assert (Hn : lat (parse_gps pynmea2_parse float_of_string int_of_string now reads) = None
                 /\ lon (parse_gps pynmea2_parse float_of_string int_of_string now reads) = None).
    { apply (parse_gps_invariant _ _ _ (fun g => lat g = None /\ lon g = None));
        [split; reflexivity|].
      intros b Hb. apply zero_coordinate_keeps. intros m Hm. exact (H b m Hb Hm). }
    destruct Hn as [Hla Hlo]. repeat split; try assumption.
    unfold cycle. rewrite event_machine_no_fix; [reflexivity|].
    apply no_fix_when. right; left; exact Hla.
  - intros imei st g z H Hz. unfold cycle.
    rewrite event_machine_no_fix; [reflexivity|].
    exact (zero_coordinate_no_fix g z H Hz).
Qed.

End WindowClaims.

(** ** The decoding of a line *)

Section LineClaims.

Variable pynmea2_parse : string -> pyres nmea_sentence.
Variable float_of_string : string -> pyres float.
Variable int_of_string : string -> pyres Z.

(** C2, amended.  Inside the decoder an empty course field decodes to the
    integer 0, an empty speed field to 0.0 knots, hence 0.0 m/s, and an
    empty altitude field to 0.0: the values a field reported as zero
    decodes to.  Only the dilution and the satellite count decode an empty
    field to [None]. *)
Theorem empty_fields_decode_to_zero :
  (forall m g, true_course m = AttrNone ->
     rmc_course float_of_string m g = (Ok tt, with_course (NInt 0) g))
  /\ (forall m g z, true_course m = AttrVal z -> PyFloat.eq0 z = true ->
       rmc_course float_of_string m g = (Ok tt, with_course (NInt 0) g))
  /\ (forall m g, spd_over_grnd m = AttrNone ->
       rmc_speed float_of_string m g = (Ok tt, with_speed_m_s PyFloat.zero g))
  /\ (forall m g z, spd_over_grnd m = AttrVal z -> PyFloat.eq0 z = true ->
       rmc_speed float_of_string m g = (Ok tt, with_speed_m_s PyFloat.zero g))
  /\ (forall m g, altitude m = AttrNone ->
       alt (snd (gga_fields float_of_string int_of_string m g)) = Some PyFloat.zero)
  /\ (forall m g z, altitude m = AttrVal z -> PyFloat.eq0 z = true ->
       alt (snd (gga_fields float_of_string int_of_string m g)) = Some PyFloat.zero)
  /\ (forall parts, PyStr.item parts 15 = EmptyString ->
       pdop_value float_of_string parts = Ok None)
  /\ (forall m, num_sats m = EmptyString -> sats_value int_of_string m = Ok None).
Proof.
  refine (conj _ (conj _ (conj _ (conj _ (conj _ (conj _ (conj _ _))))))).
  - intros m g H. rewrite rmc_course_run. unfold course_value. rewrite H. reflexivity.
  - intros m g z H Hz. rewrite rmc_course_run. unfold course_value. rewrite H. simpl.
    apply PyFloatFacts.truthy_false_iff in Hz. rewrite Hz. reflexivity.
  - intros m g H. rewrite rmc_speed_run. unfold knots_value. rewrite H. reflexivity.
  - intros m g z H Hz. rewrite rmc_speed_run. unfold knots_value. rewrite H. simpl.
    apply PyFloatFacts.truthy_false_iff in Hz. rewrite Hz. reflexivity.
  - intros m g H. unfold gga_fields, alt_value, bind, eval, assign. rewrite H. simpl.
    destruct (sats_value int_of_string m); reflexivity.
  - intros m g z H Hz. unfold gga_fields, alt_value, bind, eval, assign. rewrite H. simpl.
    apply PyFloatFacts.truthy_false_iff in Hz. rewrite Hz. simpl.
    destruct (sats_value int_of_string m); reflexivity.
  - intros parts H. unfold pdop_value. rewrite H. reflexivity.
  - intros m H. unfold sats_value. rewrite H. reflexivity.
Qed.

Lemma decode_line_run (line : string) (g : gps_data) :
  PyStr.starts_with_dollar line = true ->
  decode_line pynmea2_parse float_of_string int_of_string line g
  = match gsa_fields float_of_string line g with
    | (Ok _, g') =>
        bind (eval (pynmea2_parse line))
             (fun msg => match msg with
                         | RMC m => rmc_fields float_of_string m
                         | GGA m => gga_fields float_of_string int_of_string m
                         | OtherSentence => skip
                         end) g'
    | (Raise, g') => (Raise, g')
    end.
Proof. intros H. unfold decode_line. rewrite H. reflexivity. Qed.

(** C6, amended.  No line makes the loop raise: a failed read, a line that
    does not start with the dollar sign, a line pynmea2 rejects that does
    not contain GSA, and a line whose GSA field 15 is not a number all
    leave the fix as it was, and a line with fewer than 16 fields leaves
    the fix type and the dilution as they were.  A read that leaves the fix
    as it was is skipped: the window gives the fix it gives without it. *)
Theorem malformed_line_is_skipped :
  (forall g, iteration pynmea2_parse float_of_string int_of_string g ReadFailed = g)
  /\ (forall g b, PyStr.starts_with_dollar (line_of b) = false ->
       iteration pynmea2_parse float_of_string int_of_string g (Bytes b) = g)
  /\ (forall g line, PyStr.contains "GSA" line = false -> pynmea2_parse line = Raise ->
       snd (decode_line pynmea2_parse float_of_string int_of_string line g) = g)
  /\ (forall g line, PyStr.contains "GSA" line = true ->
       (16 <= List.length (PyStr.split ","%char line))%nat ->
       PyStr.item (PyStr.split ","%char line) 15 <> EmptyString ->
       float_of_string (PyStr.item (PyStr.split ","%char line) 15) = Raise ->
       snd (decode_line pynmea2_parse float_of_string int_of_string line g) = g)
  /\ (forall g line, (List.length (PyStr.split ","%char line) < 16)%nat ->
       fix_type (snd (decode_line pynmea2_parse float_of_string int_of_string line g))
       = fix_type g
       /\ pdop (snd (decode_line pynmea2_parse float_of_string int_of_string line g))
          = pdop g)
  /\ (forall now reads r more,
       (forall g, iteration pynmea2_parse float_of_string int_of_string g r = g) ->
       parse_gps pynmea2_parse float_of_string int_of_string now (reads ++ r :: more)
       = parse_gps pynmea2_parse float_of_string int_of_string now (reads ++ more)).
Proof.
  refine (conj _ (conj _ (conj _ (conj _ (conj _ _))))).
  - intros g. reflexivity.
  - intros g b H. unfold iteration, read_and_decode, decode_line.
    rewrite H. reflexivity.
  - intros g line Hc Hp.
    destruct (PyStr.starts_with_dollar line) eqn:Hd.
    + rewrite decode_line_run by exact Hd.
      rewrite gsa_fields_skipped by (left; exact Hc).
      unfold bind, eval. rewrite Hp. reflexivity.
    + unfold decode_line. rewrite Hd. reflexivity.
  - intros g line Hc Hl Hne Hf.
    destruct (PyStr.starts_with_dollar line) eqn:Hd.
    + rewrite decode_line_run by exact Hd.
      rewrite gsa_fields_run by assumption.
      unfold pdop_value. rewrite Hf.
      destruct (PyStr.item (PyStr.split ","%char line) 15); [congruence|reflexivity].
    + unfold decode_line. rewrite Hd. reflexivity.
  - intros g line Hl.
    destruct (PyStr.starts_with_dollar line) eqn:Hd.
    + rewrite decode_line_run by exact Hd.
      rewrite gsa_fields_skipped by (right; exact Hl).
      destruct (sentence_keeps_dop pynmea2_parse float_of_string int_of_string
                  line (pdop g) (fix_type g) g (conj eq_refl eq_refl)) as [H1 H2].
      split; assumption.
    + unfold decode_line. rewrite Hd. split; reflexivity.
  - intros now reads r more H. unfold parse_gps.
    rewrite !fold_left_app. simpl. rewrite H. reflexivity.
Qed.

(** C10, amended.  A line that starts with the dollar sign, contains GSA
    anywhere and splits into at least 16 fields, and whose field 15 is
    empty or converts to a float, sets the dilution from field 15 ([None]
    when it is empty) and the fix type from field 2 (2D for 2, 3D for 3,
    unchanged otherwise), whatever pynmea2 makes of the line. *)
Theorem gsa_line_updates (line : string) (g : gps_data) (p : option float) :
  PyStr.starts_with_dollar line = true ->
  PyStr.contains "GSA" line = true ->
  (16 <= List.length (PyStr.split ","%char line))%nat ->
  pdop_value float_of_string (PyStr.split ","%char line) = Ok p ->
  (PyStr.item (PyStr.split ","%char line) 15 = EmptyString -> p = None)
  /\ pdop (snd (decode_line pynmea2_parse float_of_string int_of_string line g)) = p
  /\ fix_type (snd (decode_line pynmea2_parse float_of_string int_of_string line g))
     = (if String.eqb (PyStr.item (PyStr.split ","%char line) 2) "2" then "2D"
        else if String.eqb (PyStr.item (PyStr.split ","%char line) 2) "3" then "3D"
        else fix_type g).
Proof.
  intros Hd Hc Hl Hp. split.
  - intros He. unfold pdop_value in Hp. rewrite He in Hp. simpl in Hp. congruence.
  - rewrite decode_line_run by exact Hd.
    rewrite gsa_fields_run by assumption. rewrite Hp.
    set (g' := if String.eqb (PyStr.item (PyStr.split ","%char line) 2) "2"
               then with_fix_type "2D" (with_pdop p g)
               else if String.eqb (PyStr.item (PyStr.split ","%char line) 2) "3"
                    then with_fix_type "3D" (with_pdop p g)
                    else with_pdop p g).
    destruct (sentence_keeps_dop pynmea2_parse float_of_string int_of_string
                line (pdop g') (fix_type g') g' (conj eq_refl eq_refl)) as [H1 H2].
    rewrite H1, H2. unfold g'.
    destruct (String.eqb (PyStr.item (PyStr.split ","%char line) 2) "2"); [split; reflexivity|].
    destruct (String.eqb (PyStr.item (PyStr.split ","%char line) 2) "3"); split; reflexivity.
Qed.

(** The speed a completed RMC branch stores. *)
Lemma rmc_fields_speed (m : rmc_sentence) (g : gps_data) (k : float) :
  spd_over_grnd m = AttrVal k -> PyFloat.truthy k = true ->
  fst (rmc_fields float_of_string m g) = Ok tt ->
  speed_m_s (snd (rmc_fields float_of_string m g))
  = PyFloat.round1 (PyFloat.mul k KNOTS_TO_M_S).
Proof.
  intros Hs Hk H.
  destruct (rmc_fields_completed _ m g H) as (c & k' & t & _ & Hk' & _ & _ & -> & _).
  unfold knots_value in Hk'. rewrite Hs in Hk'. simpl in Hk'. rewrite Hk in Hk'.
  inversion Hk'. reflexivity.
Qed.

Lemma parse_gps_rounded (now : string) (reads : list serial_read) :
  rounded_course (course (parse_gps pynmea2_parse float_of_string int_of_string now reads))
  /\ rounded_speed (speed_m_s (parse_gps pynmea2_parse float_of_string int_of_string now reads)).
Proof.
  apply (parse_gps_invariant _ _ _
           (fun g => rounded_course (course g) /\ rounded_speed (speed_m_s g))).
  - split; [left; reflexivity | exists PyFloat.zero; reflexivity].
  - intros b _. apply decode_line_preserves.
    + apply gsa_fields_preserves; intros ? g Hg; exact Hg.
    + intros m _. apply rmc_fields_preserves.
      * apply rmc_status_preserves. intros _ g Hg. exact Hg.
      * apply rmc_position_preserves. intros la lo _ _ _ _ g Hg. exact Hg.
      * intros c Hc g [_ Hg]. split; assumption.
      * intros x Hx g [Hg _]. split; assumption.
      * intros t g Hg. exact Hg.
    + intros m _. apply gga_fields_preserves; intros ? g Hg; exact Hg.
Qed.

End LineClaims.

(** C4.  On a fix that is valid and geolocated, the event machine emits
    POWER ON (code 1) when power-on has not been logged yet, and goes to
    moving when the speed is above zero and to stationary otherwise; from
    stationary it emits MOVING (code 3) and goes to moving on a speed above
    zero, and emits Position Report (code 0) and stays on a speed of zero;
    from moving it emits STOPPED (code 4) and goes to stationary on a speed
    of zero, and emits Position Report and stays on a speed above zero.
    POWER OFF (code 2) is never emitted.  The speeds 0, 0, 3.2, 3.2, 0 from
    the uninitialized state give POWER ON, Position Report, MOVING,
    Position Report, STOPPED. *)
Theorem event_machine_transitions :
  (forall m gps, has_fix gps = true -> power_on_logged m = false ->
     event_machine m gps
     = (Some (POWER_ON, 1), if PyFloat.gt0 (speed_m_s gps) then moving else stationary))
  /\ (forall gps, has_fix gps = true -> PyFloat.gt0 (speed_m_s gps) = true ->
       event_machine stationary gps = (Some (MOVING, 3), moving))
  /\ (forall gps, has_fix gps = true -> PyFloat.eq0 (speed_m_s gps) = true ->
       event_machine stationary gps = (Some (Position_Report, 0), stationary))
  /\ (forall gps, has_fix gps = true -> PyFloat.eq0 (speed_m_s gps) = true ->
       event_machine moving gps = (Some (STOPPED, 4), stationary))
  /\ (forall gps, has_fix gps = true -> PyFloat.gt0 (speed_m_s gps) = true ->
       event_machine moving gps = (Some (Position_Report, 0), moving))
  /\ (forall m gps e code m', event_machine m gps = (Some (e, code), m') ->
       e <> POWER_OFF /\ code <> 2)
  /\ run_machine uninitialized (map Sample.fix_at_speed scenario_speeds)
     = [Some (POWER_ON, 1); Some (Position_Report, 0); Some (MOVING, 3);
        Some (Position_Report, 0); Some (STOPPED, 4)].
Proof.
  refine (conj _ (conj _ (conj _ (conj _ (conj _ (conj _ _)))))).
  - intros m gps Hf Hm. rewrite (event_machine_fix gps m Hf), (classify_first gps m Hm).
    simpl. destruct (PyFloat.gt0 (speed_m_s gps)); reflexivity.
  - intros gps Hf Hs. rewrite (event_machine_fix gps _ Hf), (classify_stationary_speed gps Hs).
    reflexivity.
  - intros gps Hf Hs. rewrite (event_machine_fix gps _ Hf), (classify_stationary_still gps Hs).
    reflexivity.
  - intros gps Hf Hs. rewrite (event_machine_fix gps _ Hf), (classify_moving_still gps Hs).
    reflexivity.
  - intros gps Hf Hs. rewrite (event_machine_fix gps _ Hf), (classify_moving_speed gps Hs).
    reflexivity.
  - intros m gps e code m' H.
    unfold event_machine in H. destruct (has_fix gps); [|discriminate].
    pose proof (classify_not_power_off gps m) as Hn.
    destruct (classify m gps) as [e0 m0]. inversion H; subst. simpl in Hn.
    split; [exact Hn|]. destruct e; simpl; congruence.
  - vm_compute. reflexivity.
Qed.

(** A stationary unit that starts to move at 3.2 m/s. *)
Lemma event_machine_transitions_witness :
  has_fix (Sample.fix_at_speed (PyFloat.lit 32 10)) = true
  /\ PyFloat.gt0 (speed_m_s (Sample.fix_at_speed (PyFloat.lit 32 10))) = true
  /\ event_machine stationary (Sample.fix_at_speed (PyFloat.lit 32 10))
     = (Some (MOVING, 3), moving).
Proof.
  split; [vm_compute; reflexivity|]. split; [vm_compute; reflexivity|].
  apply (proj1 (proj2 event_machine_transitions)); vm_compute; reflexivity.
Defined.

(** C5.  On a fix whose valid flag is false, or whose latitude or longitude
    is missing, the cycle emits no event, builds no feature and prints
    "No fix", and the flags, the previous speed and the list of features are
    what they were. *)
Theorem no_fix_leaves_state (imei : string) (st : loop_state) (gps : gps_data)
    (H : valid gps = false \/ lat gps = None \/ lon gps = None) :
  event_machine (motion_state st) gps = (None, motion_state st)
  /\ cycle imei st gps = Ok (st, No_fix).
Proof.
  pose proof (event_machine_no_fix gps (motion_state st) (no_fix_when gps H)) as He.
  split; [exact He|]. unfold cycle. rewrite He. reflexivity.
Qed.

(** A valid fix that has no latitude. *)
Lemma no_fix_leaves_state_witness :
  cycle "IMEI" (mk_loop_state PyFloat.zero moving [])
        (with_valid true (with_lon (Some Sample.munich_lon) (initial_gps_data Sample.now)))
  = Ok (mk_loop_state PyFloat.zero moving [], No_fix).
Proof.
  apply (no_fix_leaves_state "IMEI" (mk_loop_state PyFloat.zero moving [])
           (with_valid true (with_lon (Some Sample.munich_lon) (initial_gps_data Sample.now)))).
  right; left; reflexivity.
Defined.

(** ** The window on sample sentences *)

(** A window holding one RMC sentence with status A and no position. *)
Lemma valid_without_coordinates :
  ~ (valid (Sample.parse_gps Sample.now [Sample.wire Sample.rmc_no_position]) = true ->
     lat (Sample.parse_gps Sample.now [Sample.wire Sample.rmc_no_position]) <> None
     /\ lon (Sample.parse_gps Sample.now [Sample.wire Sample.rmc_no_position]) <> None).
Proof.
  intros H. destruct H as [H _]; [vm_compute; reflexivity|].
  apply H. vm_compute. reflexivity.
Qed.

(** A window holding an RMC sentence with status A followed by one with
    status F: the second sentence is decoded, and the fix is still valid. *)
Lemma status_F_keeps_valid :
  Sample.pynmea2_parse Sample.rmc_status_F
  = Ok (RMC (Sample.rmc_with "F" Sample.munich_lat Sample.munich_lon
               (AttrVal (PyFloat.lit 224 10)) (AttrVal (PyFloat.lit 844 10)) 24))
  /\ fst (Sample.decode_line Sample.rmc_status_F
            (Sample.parse_gps Sample.now [Sample.wire Sample.rmc_active])) = Ok tt
  /\ valid (Sample.parse_gps Sample.now
              [Sample.wire Sample.rmc_active; Sample.wire Sample.rmc_status_F]) = true.
Proof. repeat split; vm_compute; reflexivity. Qed.

(** A window whose only RMC sentence has status F. *)
Lemma valid_needs_status_A_witness :
  valid (Sample.parse_gps Sample.now [Sample.wire Sample.rmc_status_F; Sample.wire Sample.gsa_3d])
  = false.
Proof.
  apply (proj1 (valid_needs_status_A Sample.pynmea2_parse Sample.float_of_string
                  Sample.int_of_string)).
  intros b m [Hb | [Hb | []]] Hm; inversion Hb; subst b; vm_compute in Hm;
    inversion Hm; subst m; simpl; discriminate.
Defined.

(** A window holding an RMC sentence with status F and a position, followed
    by an RMC sentence with status A on the equator: the second sentence is
    decoded and stores no coordinate, the fix keeps the position of the
    first and the flag of the second, and the cycle records POWER ON for it
    instead of printing "No fix". *)
Lemma zero_coordinate_after_position :
  Sample.pynmea2_parse Sample.rmc_equator
  = Ok (RMC (Sample.rmc_with "A" PyFloat.zero Sample.munich_lon
               (AttrVal (PyFloat.lit 224 10)) (AttrVal (PyFloat.lit 844 10)) 19))
  /\ fst (Sample.decode_line Sample.rmc_equator
            (Sample.parse_gps Sample.now [Sample.wire Sample.rmc_status_F])) = Ok tt
  /\ lat (Sample.parse_gps Sample.now
            [Sample.wire Sample.rmc_status_F; Sample.wire Sample.rmc_equator])
     = Some Sample.munich_lat
  /\ valid (Sample.parse_gps Sample.now
              [Sample.wire Sample.rmc_status_F; Sample.wire Sample.rmc_equator]) = true
  /\ cycle "IMEI" initial_loop_state
       (Sample.parse_gps Sample.now
          [Sample.wire Sample.rmc_status_F; Sample.wire Sample.rmc_equator])
     <> Ok (initial_loop_state, No_fix)
  /\ match cycle "IMEI" initial_loop_state
             (Sample.parse_gps Sample.now
                [Sample.wire Sample.rmc_status_F; Sample.wire Sample.rmc_equator]) with
     | Ok (st, Recorded f) =>
         AFF.event_type (AFF.feature_properties f) = "POWER ON" /\ features st = [f]
     | _ => False
     end.
Proof.
  split; [vm_compute; reflexivity|].
  split; [vm_compute; reflexivity|].
  split; [vm_compute; reflexivity|].
  split; [vm_compute; reflexivity|].
  split; [vm_compute; discriminate|].
  vm_compute. split; reflexivity.
Qed.

(** A fix on the equator decoded after a fix in Munich. *)
Lemma zero_coordinate_is_absent_witness :
  lat (snd (Sample.decode_line Sample.rmc_equator (Sample.fix_at_speed PyFloat.zero)))
  = Some Sample.munich_lat
  /\ lon (snd (Sample.decode_line Sample.rmc_equator (Sample.fix_at_speed PyFloat.zero)))
     = Some Sample.munich_lon.
Proof.
  apply (proj1 (zero_coordinate_is_absent Sample.pynmea2_parse Sample.float_of_string
                  Sample.int_of_string)
           Sample.rmc_equator
           (Sample.rmc_with "A" PyFloat.zero Sample.munich_lon
              (AttrVal (PyFloat.lit 224 10)) (AttrVal (PyFloat.lit 844 10)) 19)).
  - vm_compute. reflexivity.
  - left. exists PyFloat.zero. split; reflexivity.
Defined.

(** ** Lines on sample sentences *)

(** An RMC sentence whose speed and course fields are empty decodes to the
    dictionary of the sentence that reports them as zero, and so do the two
    GGA sentences for the altitude. *)
Lemma empty_field_is_not_told_from_zero :
  course (Sample.parse_gps Sample.now [Sample.wire Sample.rmc_empty_speed]) = NInt 0
  /\ speed_m_s (Sample.parse_gps Sample.now [Sample.wire Sample.rmc_empty_speed]) = PyFloat.zero
  /\ Sample.parse_gps Sample.now [Sample.wire Sample.rmc_empty_speed]
     = Sample.parse_gps Sample.now [Sample.wire Sample.rmc_zero_speed]
  /\ alt (Sample.parse_gps Sample.now [Sample.wire Sample.gga_empty_alt]) = Some PyFloat.zero
  /\ Sample.parse_gps Sample.now [Sample.wire Sample.gga_empty_alt]
     = Sample.parse_gps Sample.now [Sample.wire Sample.gga_zero_alt].
Proof. repeat split; vm_compute; reflexivity. Qed.

(** The course step on the sentence with an empty course field. *)
Lemma empty_fields_decode_to_zero_witness :
  rmc_course Sample.float_of_string
    (Sample.rmc_with "A" Sample.munich_lat Sample.munich_lon AttrNone AttrNone 19)
    (initial_gps_data Sample.now)
  = (Ok tt, with_course (NInt 0) (initial_gps_data Sample.now)).
Proof.
  apply (proj1 (empty_fields_decode_to_zero Sample.float_of_string Sample.int_of_string)).
  reflexivity.
Defined.

(** A GSA sentence with a wrong checksum, which pynmea2 rejects, has set the
    dilution and the fix type by then; an RMC sentence whose speed is not a
    number has set the valid flag, the position and the course. *)
Lemma failed_line_keeps_assignments :
  Sample.pynmea2_parse Sample.gsa_bad_checksum = Raise
  /\ fst (Sample.decode_line Sample.gsa_bad_checksum (initial_gps_data Sample.now)) = Raise
  /\ pdop (snd (Sample.decode_line Sample.gsa_bad_checksum (initial_gps_data Sample.now)))
     = Some (PyFloat.lit 25 10)
  /\ fix_type (snd (Sample.decode_line Sample.gsa_bad_checksum (initial_gps_data Sample.now)))
     = "3D"
  /\ snd (Sample.decode_line Sample.gsa_bad_checksum (initial_gps_data Sample.now))
     <> initial_gps_data Sample.now
  /\ fst (Sample.decode_line Sample.rmc_bad_speed (initial_gps_data Sample.now)) = Raise
  /\ valid (snd (Sample.decode_line Sample.rmc_bad_speed (initial_gps_data Sample.now))) = true
  /\ lat (snd (Sample.decode_line Sample.rmc_bad_speed (initial_gps_data Sample.now)))
     = Some Sample.munich_lat
  /\ course (snd (Sample.decode_line Sample.rmc_bad_speed (initial_gps_data Sample.now)))
     = NFloat (PyFloat.lit 844 10).
Proof.
  repeat split; try (vm_compute; reflexivity).
  vm_compute. discriminate.
Qed.

(** A GSA sentence cut after eleven fields, on a fix that has a dilution. *)
Lemma malformed_line_is_skipped_witness :
  fix_type (snd (Sample.decode_line Sample.gsa_short
                   (with_pdop (Some (PyFloat.lit 25 10)) (initial_gps_data Sample.now))))
  = "Invalid"
  /\ pdop (snd (Sample.decode_line Sample.gsa_short
                  (with_pdop (Some (PyFloat.lit 25 10)) (initial_gps_data Sample.now))))
     = Some (PyFloat.lit 25 10).
Proof.
  apply (proj1 (proj2 (proj2 (proj2 (proj2
           (malformed_line_is_skipped Sample.pynmea2_parse Sample.float_of_string
              Sample.int_of_string)))))).
  vm_compute. lia.
Defined.

(** A GSA sentence whose field 15 is not a number: the line starts with the
    dollar sign, contains GSA and has 18 fields, field 2 is 3, and neither
    the fix type nor the dilution is updated. *)
Lemma gsa_line_with_bad_pdop_updates_nothing :
  PyStr.starts_with_dollar Sample.gsa_bad_pdop = true
  /\ PyStr.contains "GSA" Sample.gsa_bad_pdop = true
  /\ List.length (PyStr.split ","%char Sample.gsa_bad_pdop) = 18%nat
  /\ PyStr.item (PyStr.split ","%char Sample.gsa_bad_pdop) 2 = "3"
  /\ PyStr.item (PyStr.split ","%char Sample.gsa_bad_pdop) 15 = "high"
  /\ snd (Sample.decode_line Sample.gsa_bad_pdop
            (with_pdop (Some (PyFloat.lit 25 10)) (initial_gps_data Sample.now)))
     = with_pdop (Some (PyFloat.lit 25 10)) (initial_gps_data Sample.now).
Proof. repeat split; vm_compute; reflexivity. Qed.

(** The GSA sentence of a 3D fix with dilution 2.5. *)
Lemma gsa_line_updates_witness :
  pdop (snd (Sample.decode_line Sample.gsa_3d (initial_gps_data Sample.now)))
  = Some (PyFloat.lit 25 10)
  /\ fix_type (snd (Sample.decode_line Sample.gsa_3d (initial_gps_data Sample.now))) = "3D".
Proof.
  apply (gsa_line_updates Sample.pynmea2_parse Sample.float_of_string Sample.int_of_string
           Sample.gsa_3d (initial_gps_data Sample.now) (Some (PyFloat.lit 25 10))).
  - reflexivity.
  - reflexivity.
  - vm_compute. lia.
  - vm_compute. reflexivity.
Defined.

(** ** Speed and feature *)

(** C7.  The speed a completed RMC branch stores is the reported knots
    multiplied by the float 0.514444 and rounded to one decimal: the factor
    is the float nearest to 514444/1000000, and [round(_, 1)] gives the float
    nearest to [k/10] for an integer [k] nearest to ten times its argument.
    Ten knots decode to the float 5.1. *)
Theorem speed_conversion :
  (forall float_of_string m g k,
     spd_over_grnd m = AttrVal k -> PyFloat.truthy k = true ->
     fst (rmc_fields float_of_string m g) = Ok tt ->
     speed_m_s (snd (rmc_fields float_of_string m g))
     = PyFloat.round1 (PyFloat.mul k KNOTS_TO_M_S))
  /\ (KNOTS_TO_M_S = S754_finite false 4633699613405975 (-53)
      /\ 2 * Z.abs (514444 * 2 ^ 53 - 4633699613405975 * 1000000) <= 1000000)
  /\ (forall s m e, exists k,
        PyFloat.round1 (S754_finite s m e) = PyFloat.of_ratio s k 10
        /\ PyFloat.nearest_tenths k m e)
  /\ speed_value (PyFloat.lit 10 1) = PyFloat.lit 51 10
  /\ speed_m_s (Sample.parse_gps Sample.now [Sample.wire Sample.rmc_ten_knots])
     = PyFloat.lit 51 10.
Proof.
  refine (conj _ (conj _ (conj _ (conj _ _)))).
  - intros fl m g k. apply rmc_fields_speed.
  - split; [vm_compute; reflexivity | vm_compute; discriminate].
  - apply PyFloatFacts.round1_nearest.
  - vm_compute. reflexivity.
  - vm_compute. reflexivity.
Qed.

(** The RMC sentence at 22.4 knots. *)
Lemma speed_conversion_witness :
  speed_m_s (snd (rmc_fields Sample.float_of_string
                    (Sample.rmc_with "A" Sample.munich_lat Sample.munich_lon
                       (AttrVal (PyFloat.lit 224 10)) (AttrVal (PyFloat.lit 844 10)) 19)
                    (initial_gps_data Sample.now)))
  = PyFloat.round1 (PyFloat.mul (PyFloat.lit 224 10) KNOTS_TO_M_S).
Proof.
  apply (proj1 speed_conversion); vm_compute; reflexivity.
Defined.

(** C8.  A feature [create_aff_feature] builds has as [cog] and [spd] the
    course and the speed of the fix truncated toward zero, and as
    coordinates the longitude, the latitude and the altitude of the fix, in
    that order; it is built whenever the course and the speed are finite;
    and the course and the speed of a fix [parse_gps] returns are values
    rounded to one decimal (or the initial 0). *)
Theorem feature_fields :
  (forall gps imei code type_ extra f,
     create_aff_feature gps imei code type_ extra = Ok f ->
     number_truncation (AFF.cog (AFF.feature_properties f)) (course gps)
     /\ PyFloat.truncation_of (AFF.spd (AFF.feature_properties f)) (speed_m_s gps)
     /\ AFF.coordinates (AFF.feature_geometry f) = [lon gps; lat gps; alt gps])
  /\ (forall gps imei code type_ extra,
        number_finite (course gps) = true -> PyFloat.is_finite (speed_m_s gps) = true ->
        exists f, create_aff_feature gps imei code type_ extra = Ok f)
  /\ (forall pynmea2_parse float_of_string int_of_string now reads,
        rounded_course
          (course (parse_gps pynmea2_parse float_of_string int_of_string now reads))
        /\ rounded_speed
             (speed_m_s (parse_gps pynmea2_parse float_of_string int_of_string now reads))).
Proof.
  refine (conj _ (conj _ _)).
  - intros gps imei code type_ extra f. unfold create_aff_feature.
    destruct (int_of_number (course gps)) as [c|] eqn:Hc; simpl; [|discriminate].
    destruct (PyFloat.to_int (speed_m_s gps)) as [v|] eqn:Hv; simpl; [|discriminate].
    intros H. inversion H; subst f; clear H. simpl.
    split; [|split; [|reflexivity]].
    + unfold int_of_number in Hc. destruct (course gps) as [z|x]; simpl.
      * congruence.
      * apply PyFloatFacts.to_int_truncation. exact Hc.
    + apply PyFloatFacts.to_int_truncation. exact Hv.
  - intros gps imei code type_ extra Hc Hv. unfold create_aff_feature.
    assert (Hc' : exists c, int_of_number (course gps) = Ok c).
    { destruct (course gps) as [z|x]; simpl in *.
      - exists z. reflexivity.
      - apply PyFloatFacts.to_int_finite. exact Hc. }
    destruct Hc' as [c ->]. destruct (PyFloatFacts.to_int_finite _ Hv) as [v ->].
    simpl. eexists. reflexivity.
  - apply parse_gps_rounded.
Qed.

(** The feature of a window with an RMC, a GSA and a GGA sentence. *)
Lemma feature_fields_witness :
  exists f,
    create_aff_feature
      (Sample.parse_gps Sample.now
         [Sample.wire Sample.rmc_active; Sample.wire Sample.gsa_3d; Sample.wire Sample.gga_alt])
      "IMEI" 1 "POWER ON" "" = Ok f.
Proof.
  apply (proj1 (proj2 feature_fields)); vm_compute; reflexivity.
Defined.

(** * Further properties *)

(** ** Runs of the event machine *)

Lemma run_machine_repeat (m : motion) (gps : gps_data) (out : option (event * Z)) (n : nat) :
  event_machine m gps = (out, m) ->
  run_machine m (repeat gps n) = repeat out n.
Proof.
  intros H. induction n as [|n IH]; simpl; [reflexivity|].
  rewrite H, IH. reflexivity.
Qed.

(** X1.  Fed the same valid, geolocated fix any number of times, the machine
    in the stationary state with a speed of zero, and the machine in the
    moving state with a speed above zero, emits Position Report every time
    and stays where it is. *)
Theorem steady_state_reports (gps : gps_data) (n : nat) :
  has_fix gps = true ->
  (PyFloat.eq0 (speed_m_s gps) = true ->
   run_machine stationary (repeat gps n) = repeat (Some (Position_Report, 0)) n)
  /\ (PyFloat.gt0 (speed_m_s gps) = true ->
      run_machine moving (repeat gps n) = repeat (Some (Position_Report, 0)) n).
Proof.
  intros Hf. split; intros Hs; apply run_machine_repeat.
  - rewrite (event_machine_fix gps _ Hf), (classify_stationary_still gps Hs). reflexivity.
  - rewrite (event_machine_fix gps _ Hf), (classify_moving_speed gps Hs). reflexivity.
Qed.

(** Three windows at rest. *)
Lemma steady_state_reports_witness :
  run_machine stationary (repeat (Sample.fix_at_speed PyFloat.zero) 3)
  = repeat (Some (Position_Report, 0)) 3.
Proof.
  apply (proj1 (steady_state_reports (Sample.fix_at_speed PyFloat.zero) 3 eq_refl)).
  reflexivity.
Defined.

(** X2.  Once power-on is logged, a valid, geolocated fix whose speed is
    neither above zero nor equal to zero (a negative speed, a NaN) gives
    Position Report and leaves the motion state as it is. *)
Theorem odd_speed_changes_nothing (m : motion) (gps : gps_data) :
  has_fix gps = true ->
  power_on_logged m = true ->
  PyFloat.gt0 (speed_m_s gps) = false ->
  PyFloat.eq0 (speed_m_s gps) = false ->
  event_machine m gps = (Some (Position_Report, 0), m).
Proof.
  intros Hf Hp Hg He. rewrite (event_machine_fix gps m Hf).
  unfold classify. rewrite Hp, Hg, He. simpl.
  rewrite !andb_false_r. reflexivity.
Qed.

(** A moving unit that reads a NaN speed. *)
Lemma odd_speed_changes_nothing_witness :
  event_machine moving (Sample.fix_at_speed S754_nan) = (Some (Position_Report, 0), moving).
Proof.
  apply (odd_speed_changes_nothing moving (Sample.fix_at_speed S754_nan)); reflexivity.
Defined.

Lemma emitted_no_power_on (m : motion) (fixes : list gps_data) :
  power_on_logged m = true -> ~ In POWER_ON (emitted (run_machine m fixes)).
Proof.
  revert m. induction fixes as [|gps fixes IH]; intros m Hm; simpl; [tauto|].
  unfold event_machine. destruct (has_fix gps).
  - unfold classify. rewrite Hm. simpl.
    destruct (negb (in_motion m) && PyFloat.gt0 (speed_m_s gps))%bool;
      [|destruct (in_motion m && PyFloat.eq0 (speed_m_s gps))%bool];
      simpl; intros [H|H]; try discriminate; revert H; apply IH; simpl;
      first [reflexivity | assumption].
  - simpl. apply IH. exact Hm.
Qed.

Lemma emitted_length (m : motion) (fixes : list gps_data) :
  List.length (emitted (run_machine m fixes)) = List.length (filter has_fix fixes).
Proof.
  revert m. induction fixes as [|gps fixes IH]; intros m; simpl; [reflexivity|].
  unfold event_machine. destruct (has_fix gps).
  - destruct (classify m gps) as [e m']. simpl. rewrite IH. reflexivity.
  - simpl. apply IH.
Qed.

(** X3.  A run from the uninitialized state emits one event for each fix
    that is valid and geolocated; the first event is POWER ON, and POWER ON
    is never emitted again. *)
Theorem power_on_once (fixes : list gps_data) :
  List.length (emitted (run_machine uninitialized fixes)) = List.length (filter has_fix fixes)
  /\ (emitted (run_machine uninitialized fixes) = []
      \/ exists rest, emitted (run_machine uninitialized fixes) = POWER_ON :: rest
                      /\ ~ In POWER_ON rest).
Proof.
  split; [apply emitted_length|].
  induction fixes as [|gps fixes IH]; simpl; [left; reflexivity|].
  unfold event_machine. destruct (has_fix gps).
  - right. simpl. eexists. split; [reflexivity|].
    apply emitted_no_power_on. reflexivity.
  - simpl. exact IH.
Qed.

Lemma alternates_weaken (b : bool) (events : list event) :
  alternates (Some b) events = true -> alternates None events = true.
Proof.
  induction events as [|e rest IH]; [reflexivity|].
  destruct e, b; simpl; try congruence; exact IH.
Qed.

Lemma alternates_logged (m : motion) (fixes : list gps_data) :
  power_on_logged m = true ->
  alternates (Some (in_motion m)) (emitted (run_machine m fixes)) = true.
Proof.
  revert m. induction fixes as [|gps fixes IH]; intros m Hm; simpl; [reflexivity|].
  unfold event_machine. destruct (has_fix gps); [|simpl; apply IH; exact Hm].
  destruct m as [p i]. simpl in Hm. subst p. unfold classify. simpl.
  destruct i; simpl.
  - destruct (PyFloat.eq0 (speed_m_s gps)); simpl.
    + apply (IH (mk_motion true false)). reflexivity.
    + apply (IH (mk_motion true true)). reflexivity.
  - destruct (PyFloat.gt0 (speed_m_s gps)); simpl.
    + apply (IH (mk_motion true true)). reflexivity.
    + apply (IH (mk_motion true false)). reflexivity.
Qed.

(** X4.  In every run of the machine, from any state, MOVING and STOPPED
    take turns: between two MOVING events there is a STOPPED event, and
    between two STOPPED events a MOVING event. *)
Theorem motion_events_alternate (m : motion) (fixes : list gps_data) :
  alternates None (emitted (run_machine m fixes)) = true.
Proof.
  destruct (power_on_logged m) eqn:Hm.
  - apply (alternates_weaken (in_motion m)), alternates_logged, Hm.
  - induction fixes as [|gps fixes IH]; simpl; [reflexivity|].
    unfold event_machine. destruct (has_fix gps); [|simpl; exact IH].
    unfold classify. rewrite Hm. simpl.
    apply (alternates_weaken (PyFloat.gt0 (speed_m_s gps))).
    apply (alternates_logged (mk_motion true (PyFloat.gt0 (speed_m_s gps)))). reflexivity.
Qed.

(** ** The cycles of the main loop *)

Lemma int_of_number_raises (v : number) :
  int_of_number v = Raise <-> number_finite v = false.
Proof.
  destruct v as [z|x]; simpl; [split; discriminate|].
  destruct x; simpl; split; congruence.
Qed.

Lemma to_int_raises (x : float) : PyFloat.to_int x = Raise <-> PyFloat.is_finite x = false.
Proof. destruct x; simpl; split; congruence. Qed.

Lemma create_aff_feature_raises (gps : gps_data) (imei : string) (code : Z)
    (type_ extra : string) :
  create_aff_feature gps imei code type_ extra = Raise <-> converts gps = false.
Proof.
  unfold create_aff_feature, converts.
  pose proof (int_of_number_raises (course gps)) as Hc.
  pose proof (to_int_raises (speed_m_s gps)) as Hv.
  destruct (int_of_number (course gps)) as [c|]; simpl.
  - destruct (PyFloat.to_int (speed_m_s gps)) as [v|]; simpl.
    + split; [discriminate|]. intros H. apply andb_false_iff in H.
      destruct H as [H|H]; [apply Hc in H | apply Hv in H]; discriminate.
    + split; [|reflexivity]. intros _. apply andb_false_iff. right. apply Hv. reflexivity.
  - split; [|reflexivity]. intros _. apply andb_false_iff. left. apply Hc. reflexivity.
Qed.

Lemma cycle_raises (imei : string) (st : loop_state) (gps : gps_data) :
  cycle imei st gps = Raise <-> has_fix gps = true /\ converts gps = false.
Proof.
  unfold cycle, event_machine.
  destruct (has_fix gps).
  - destruct (classify (motion_state st) gps) as [e m'].
    pose proof (create_aff_feature_raises gps imei (EVENT_CODES e) (event_name e) "") as H.
    destruct (create_aff_feature gps imei (EVENT_CODES e) (event_name e) "") as [f|]; simpl.
    + split; [discriminate|]. intros [_ Hc]. apply H in Hc. discriminate.
    + split; [|reflexivity]. intros _. split; [reflexivity|]. apply H. reflexivity.
  - split; [discriminate|]. intros [Hf _]. discriminate.
Qed.

(** X5.  A cycle ends the program with an exception exactly when the fix is
    valid and geolocated and its course or its speed is infinite or a NaN;
    no other fix makes a cycle raise. *)
Theorem cycle_raises_iff (imei : string) (st : loop_state) (gps : gps_data) :
  cycle imei st gps = Raise <-> has_fix gps = true /\ converts gps = false.
Proof.
  split; intros H.
  - apply (proj1 (cycle_raises imei st gps)). exact H.
  - apply (proj2 (cycle_raises imei st gps)). exact H.
Qed.

(** What a cycle that completes has done. *)
Lemma cycle_completed (imei : string) (st st' : loop_state) (gps : gps_data)
    (out : cycle_output) :
  cycle imei st gps = Ok (st', out) ->
  (has_fix gps = false /\ st' = st /\ out = No_fix)
  \/ (has_fix gps = true
      /\ exists f, out = Recorded f
                   /\ feature_of imei gps f
                   /\ features st' = (features st ++ [f])%list
                   /\ motion_state st' = snd (classify (motion_state st) gps)
                   /\ AFF.event_type (AFF.feature_properties f)
                      = event_name (fst (classify (motion_state st) gps))
                   /\ prev_speed st' = speed_m_s gps).
Proof.
  unfold cycle, event_machine.
  destruct (has_fix gps).
  - pose proof (classify_not_power_off gps (motion_state st)) as Hn.
    destruct (classify (motion_state st) gps) as [e m']. simpl in Hn.
    destruct (create_aff_feature gps imei (EVENT_CODES e) (event_name e) "") as [f|] eqn:Hf;
      simpl; [|discriminate].
    intros H. inversion H; subst; clear H. right. split; [reflexivity|].
    exists f. repeat split; simpl; try reflexivity.
    + exists e. split; assumption.
    + unfold create_aff_feature in Hf.
      destruct (int_of_number (course gps)); simpl in Hf; [|discriminate].
      destruct (PyFloat.to_int (speed_m_s gps)); simpl in Hf; [|discriminate].
      inversion Hf. reflexivity.
  - intros H. inversion H. left. repeat split; reflexivity.
Qed.

Lemma main_loop_log (imei : string) (fixes : list gps_data) (st st' : loop_state) :
  main_loop imei st fixes = Ok st' ->
  exists new,
    features st' = (features st ++ new)%list
    /\ Forall2 (feature_of imei) (filter has_fix fixes) new
    /\ map (fun f => AFF.event_type (AFF.feature_properties f)) new
       = map event_name (emitted (run_machine (motion_state st) fixes))
    /\ motion_state st'
       = fold_left (fun m gps => snd (event_machine m gps)) fixes (motion_state st).
Proof.
  revert st. induction fixes as [|gps fixes IH]; intros st H; simpl in H.
  - inversion H; subst. exists []. rewrite app_nil_r. repeat split; constructor.
  - destruct (cycle imei st gps) as [[st1 out]|] eqn:Hc; [|discriminate].
    destruct (IH st1 H) as (new & Hf & Hall & Hev & Hm).
    destruct (cycle_completed imei st st1 gps out Hc)
      as [(Hg & -> & _) | (Hg & f & _ & Hof & Hf1 & Hm1 & He1 & _)].
    + exists new. simpl. unfold event_machine. rewrite Hg. simpl.
      repeat split; assumption.
    + exists (f :: new). simpl. unfold event_machine. rewrite Hg.
      destruct (classify (motion_state st) gps) as [e m1]. simpl in *.
      rewrite Hf, Hf1, <- app_assoc. simpl.
      split; [reflexivity|]. split; [constructor; assumption|].
      split; [rewrite He1, Hev, Hm1; reflexivity|].
      rewrite Hm, Hm1. reflexivity.
Qed.

(** X6.  A run of the main loop that goes through its cycles only appends to
    the list of features: what it leaves is what it found followed by one
    feature for each valid, geolocated fix, in order, built from that fix;
    the event types of those features are the events of the machine; and
    the motion state it leaves is the state the machine reaches. *)
Theorem main_loop_appends (imei : string) (fixes : list gps_data) (st st' : loop_state) :
  main_loop imei st fixes = Ok st' ->
  exists new,
    features st' = (features st ++ new)%list
    /\ Forall2 (feature_of imei) (filter has_fix fixes) new
    /\ map (fun f => AFF.event_type (AFF.feature_properties f)) new
       = map event_name (emitted (run_machine (motion_state st) fixes))
    /\ motion_state st'
       = fold_left (fun m gps => snd (event_machine m gps)) fixes (motion_state st).
Proof.
  intros H.
  destruct (main_loop_log imei fixes st st' H) as (new & H1 & H2 & H3 & H4).
  exists new. repeat split; assumption.
Qed.

(** The five fixes of the transition scenario. *)
Lemma main_loop_appends_witness :
  exists st',
    main_loop "IMEI" initial_loop_state (map Sample.fix_at_speed scenario_speeds) = Ok st'
    /\ exists new,
         features st' = (features initial_loop_state ++ new)%list
         /\ Forall2 (feature_of "IMEI")
                    (filter has_fix (map Sample.fix_at_speed scenario_speeds)) new
         /\ map (fun f => AFF.event_type (AFF.feature_properties f)) new
            = map event_name
                  (emitted (run_machine (motion_state initial_loop_state)
                              (map Sample.fix_at_speed scenario_speeds)))
         /\ motion_state st'
            = fold_left (fun m gps => snd (event_machine m gps))
                        (map Sample.fix_at_speed scenario_speeds)
                        (motion_state initial_loop_state).
Proof.
  eexists. split; [vm_compute; reflexivity|].
  apply (main_loop_appends "IMEI" (map Sample.fix_at_speed scenario_speeds)
           initial_loop_state).
  vm_compute. reflexivity.
Defined.

Lemma main_loop_raises (imei : string) (fixes : list gps_data) (st : loop_state) :
  main_loop imei st fixes = Raise <->
  exists gps, In gps fixes /\ has_fix gps = true /\ converts gps = false.
Proof.
  revert st. induction fixes as [|gps fixes IH]; intros st; simpl.
  - split; [discriminate | intros (g & [] & _)].
  - pose proof (cycle_raises imei st gps) as Hc.
    destruct (cycle imei st gps) as [[st1 out]|].
    + rewrite IH. split.
      * intros (g & Hg & H). exists g. split; [right; exact Hg | exact H].
      * intros (g & [Hg|Hg] & H); [|exists g; split; assumption].
        subst g. assert (E : @Ok (loop_state * cycle_output) (st1, out) = Raise)
          by (apply Hc; exact H).
        discriminate.
    + split; [|reflexivity]. intros _. exists gps. split; [left; reflexivity|].
      apply Hc. reflexivity.
Qed.

(** X7.  The main loop goes through all its cycles exactly when every fix
    that is valid and geolocated has a finite course and a finite speed;
    the first one that has not ends the program. *)
Theorem main_loop_completes (imei : string) (fixes : list gps_data) (st : loop_state) :
  (exists st', main_loop imei st fixes = Ok st') <->
  (forall gps, In gps fixes -> has_fix gps = true -> converts gps = true).
Proof.
  pose proof (main_loop_raises imei fixes st) as Hr. split.
  - intros [st' H] gps Hin Hf.
    destruct (converts gps) eqn:Hc; [reflexivity|].
    assert (E : main_loop imei st fixes = Raise)
      by (apply Hr; exists gps; repeat split; assumption).
    congruence.
  - intros H. destruct (main_loop imei st fixes) as [st'|]; [exists st'; reflexivity|].
    destruct (proj1 Hr eq_refl) as (gps & Hin & Hf & Hc).
    rewrite (H gps Hin Hf) in Hc. discriminate.
Qed.

(** ** Lines as patches *)

Lemma apply_no_patch (g : gps_data) : apply_patch no_patch g = g.
Proof. destruct g. reflexivity. Qed.

Lemma pick_later {A : Type} (a b : option A) (x : A) :
  pick (later a b) x = pick b (pick a x).
Proof. destruct a, b; reflexivity. Qed.

Lemma pick_twice {A : Type} (a : option A) (x : A) : pick a (pick a x) = pick a x.
Proof. destruct a; reflexivity. Qed.

Lemma apply_then_patch (p q : patch) (g : gps_data) :
  apply_patch (then_patch p q) g = apply_patch q (apply_patch p g).
Proof.
  unfold apply_patch, then_patch. simpl. rewrite !pick_later. reflexivity.
Qed.

Lemma apply_patch_twice (p : patch) (g : gps_data) :
  apply_patch p (apply_patch p g) = apply_patch p g.
Proof.
  unfold apply_patch. simpl. rewrite !pick_twice. reflexivity.
Qed.

(** Patches of the RMC group commute with patches of the GGA group, and
    patches of the GSA group with both. *)
Lemma apply_patch_commute (p q : patch) (g : gps_data) :
  (rmc_group p /\ gga_group q) \/ (rmc_group p /\ gsa_group q) \/ (gga_group p /\ gsa_group q) ->
  apply_patch p (apply_patch q g) = apply_patch q (apply_patch p g).
Proof.
  destruct p, q. unfold rmc_group, gga_group, gsa_group, apply_patch, pick. simpl.
  intros [[Hp Hq] | [[Hp Hq] | [Hp Hq]]];
    repeat match goal with
           | H : _ /\ _ |- _ => destruct H
           end; subst; reflexivity.
Qed.

Section Patches.

Context {A B : Type}.
Variable G : patch -> Prop.
Hypothesis G_none : G no_patch.
Hypothesis G_then : forall p q, G p -> G q -> G (then_patch p q).

Lemma patches_ret (a : A) : patches G (ret a).
Proof.
  exists (Ok a), no_patch. split; [exact G_none|].
  intros g. unfold ret. rewrite apply_no_patch. reflexivity.
Qed.

Lemma patches_eval (r : pyres A) : patches G (eval r).
Proof.
  exists r, no_patch. split; [exact G_none|].
  intros g. unfold eval. rewrite apply_no_patch. reflexivity.
Qed.

Lemma patches_bind (c : decode A) (k : A -> decode B) :
  patches G c -> (forall a, patches G (k a)) -> patches G (bind c k).
Proof.
  intros (r & p & Gp & Hc) Hk. destruct r as [a|].
  - destruct (Hk a) as (r' & q & Gq & Hq).
    exists r', (then_patch p q). split; [apply G_then; assumption|].
    intros g. unfold bind. rewrite Hc, Hq, apply_then_patch. reflexivity.
  - exists Raise, p. split; [exact Gp|].
    intros g. unfold bind. rewrite Hc. reflexivity.
Qed.

Lemma patches_if (b : bool) (c1 c2 : decode A) :
  patches G c1 -> patches G c2 -> patches G (if b then c1 else c2).
Proof. destruct b; auto. Qed.

End Patches.

Lemma patches_assign (G : patch -> Prop) (upd : gps_data -> gps_data) (p : patch) :
  G p -> (forall g, upd g = apply_patch p g) -> patches G (assign upd).
Proof.
  intros Gp H. exists (Ok tt), p. split; [exact Gp|].
  intros g. unfold assign. rewrite H. reflexivity.
Qed.

Lemma rmc_group_none : rmc_group no_patch.
Proof. repeat split. Qed.

Lemma rmc_group_then (p q : patch) : rmc_group p -> rmc_group q -> rmc_group (then_patch p q).
Proof.
  destruct p, q. unfold rmc_group, then_patch, later. simpl.
  intros (-> & -> & -> & ->) (-> & -> & -> & ->). repeat split.
Qed.

Lemma gga_group_none : gga_group no_patch.
Proof. repeat split. Qed.

Lemma gga_group_then (p q : patch) : gga_group p -> gga_group q -> gga_group (then_patch p q).
Proof.
  destruct p, q. unfold gga_group, then_patch, later. simpl.
  intros (-> & -> & -> & -> & -> & -> & -> & ->) (-> & -> & -> & -> & -> & -> & -> & ->).
  repeat split.
Qed.

Lemma gsa_group_none : gsa_group no_patch.
Proof. repeat split. Qed.

Lemma gsa_group_then (p q : patch) : gsa_group p -> gsa_group q -> gsa_group (then_patch p q).
Proof.
  destruct p, q. unfold gsa_group, then_patch, later. simpl.
  intros (-> & -> & -> & -> & -> & -> & -> & ->) (-> & -> & -> & -> & -> & -> & -> & ->).
  repeat split.
Qed.

Lemma patches_any (A : Type) (G : patch -> Prop) (c : decode A) :
  patches G c -> patches any_group c.
Proof. intros (r & p & _ & H). exists r, p. split; [exact I | exact H]. Qed.

(** The patch of a single assignment. *)
Ltac assignment G :=
  match goal with
  | |- patches _ (assign (with_posTime ?v)) =>
      apply (patches_assign G _ (mk_patch (Some v) None None None None None None None None None))
  | |- patches _ (assign (with_lat ?v)) =>
      apply (patches_assign G _ (mk_patch None (Some v) None None None None None None None None))
  | |- patches _ (assign (with_lon ?v)) =>
      apply (patches_assign G _ (mk_patch None None (Some v) None None None None None None None))
  | |- patches _ (assign (with_alt ?v)) =>
      apply (patches_assign G _ (mk_patch None None None (Some v) None None None None None None))
  | |- patches _ (assign (with_course ?v)) =>
      apply (patches_assign G _ (mk_patch None None None None (Some v) None None None None None))
  | |- patches _ (assign (with_speed_m_s ?v)) =>
      apply (patches_assign G _ (mk_patch None None None None None (Some v) None None None None))
  | |- patches _ (assign (with_pdop ?v)) =>
      apply (patches_assign G _ (mk_patch None None None None None None (Some v) None None None))
  | |- patches _ (assign (with_fix_type ?v)) =>
      apply (patches_assign G _ (mk_patch None None None None None None None (Some v) None None))
  | |- patches _ (assign (with_valid ?v)) =>
      apply (patches_assign G _ (mk_patch None None None None None None None None (Some v) None))
  | |- patches _ (assign (with_sats ?v)) =>
      apply (patches_assign G _ (mk_patch None None None None None None None None None (Some v)))
  end; [repeat split | reflexivity].

(** Splits a goal [patches G c] along the binds and the tests of [c]. *)
Ltac patching G G_none G_then :=
  repeat first
    [ apply (patches_bind G G_then); [| intro]
    | apply patches_if
    | apply (patches_ret G G_none)
    | apply (patches_eval G G_none)
    | assignment G ].

Section PatchFacts.

Variable pynmea2_parse : string -> pyres nmea_sentence.
Variable float_of_string : string -> pyres float.
Variable int_of_string : string -> pyres Z.

Lemma gsa_fields_patches (line : string) : patches gsa_group (gsa_fields float_of_string line).
Proof. unfold gsa_fields. patching gsa_group gsa_group_none gsa_group_then. Qed.

Lemma rmc_fields_patches (m : rmc_sentence) : patches rmc_group (rmc_fields float_of_string m).
Proof.
  unfold rmc_fields, rmc_status, rmc_position, rmc_course, rmc_speed, rmc_posTime.
  patching rmc_group rmc_group_none rmc_group_then.
Qed.

Lemma gga_fields_patches (m : gga_sentence) :
  patches gga_group (gga_fields float_of_string int_of_string m).
Proof. unfold gga_fields. patching gga_group gga_group_none gga_group_then. Qed.

End PatchFacts.

Lemma any_group_then (p q : patch) : any_group p -> any_group q -> any_group (then_patch p q).
Proof. intros _ _. exact I. Qed.

Section PatchClaims.

Variable pynmea2_parse : string -> pyres nmea_sentence.
Variable float_of_string : string -> pyres float.
Variable int_of_string : string -> pyres Z.

(** X8.  Each kind of sentence writes its own keys, the same way whatever
    the fix so far: the RMC branch sets nothing but valid, lat, lon, course,
    speed_m_s and posTime, the GGA branch nothing but alt and sats, and the
    GSA test nothing but pdop and fix_type; the values set and the outcome
    (completed or raised) depend on the sentence alone, and no step sets
    the capture time. *)
Theorem sentence_field_groups :
  (forall m, patches rmc_group (rmc_fields float_of_string m))
  /\ (forall m, patches gga_group (gga_fields float_of_string int_of_string m))
  /\ (forall line, patches gsa_group (gsa_fields float_of_string line)).
Proof.
  refine (conj _ (conj _ _)).
  - apply rmc_fields_patches.
  - apply gga_fields_patches.
  - apply gsa_fields_patches.
Qed.

Lemma decode_line_patches (line : string) :
  patches any_group (decode_line pynmea2_parse float_of_string int_of_string line).
Proof.
  unfold decode_line.
  apply patches_if; [apply (patches_ret any_group I)|].
  apply (patches_bind any_group any_group_then).
  - apply (patches_any _ gsa_group), gsa_fields_patches.
  - intros _. apply (patches_bind any_group any_group_then).
    + apply (patches_eval any_group I).
    + intros [m|m|].
      * apply (patches_any _ rmc_group), rmc_fields_patches.
      * apply (patches_any _ gga_group), gga_fields_patches.
      * apply (patches_ret any_group I).
Qed.

Lemma iteration_patch (r : serial_read) :
  exists p, forall g,
    iteration pynmea2_parse float_of_string int_of_string g r = apply_patch p g.
Proof.
  destruct r as [b|].
  - destruct (decode_line_patches (line_of b)) as (res & p & _ & H).
    exists p. intros g. unfold iteration, read_and_decode. rewrite H. reflexivity.
  - exists no_patch. intros g. rewrite apply_no_patch. reflexivity.
Qed.

(** X9.  A read that comes twice in a row counts once: decoding a line
    again changes nothing, and the fix of the window is the one without the
    repetition. *)
Theorem repeated_read_counts_once :
  (forall g r,
     iteration pynmea2_parse float_of_string int_of_string
       (iteration pynmea2_parse float_of_string int_of_string g r) r
     = iteration pynmea2_parse float_of_string int_of_string g r)
  /\ (forall now reads r more,
        parse_gps pynmea2_parse float_of_string int_of_string now (reads ++ r :: r :: more)
        = parse_gps pynmea2_parse float_of_string int_of_string now (reads ++ r :: more)).
Proof.
  assert (H : forall g r,
             iteration pynmea2_parse float_of_string int_of_string
               (iteration pynmea2_parse float_of_string int_of_string g r) r
             = iteration pynmea2_parse float_of_string int_of_string g r).
  { intros g r. destruct (iteration_patch r) as [p Hp].
    rewrite !Hp. apply apply_patch_twice. }
  split; [exact H|].
  intros now reads r more. unfold parse_gps.
  rewrite !fold_left_app. simpl. rewrite H. reflexivity.
Qed.

(** X10.  The order in which an RMC sentence and a GGA sentence are decoded
    does not matter, and neither does the place of the GSA test among them:
    the three write apart from each other. *)
Theorem sentences_commute (mr : rmc_sentence) (mg : gga_sentence) (line : string)
    (g : gps_data) :
  snd (gga_fields float_of_string int_of_string mg (snd (rmc_fields float_of_string mr g)))
  = snd (rmc_fields float_of_string mr (snd (gga_fields float_of_string int_of_string mg g)))
  /\ snd (gsa_fields float_of_string line (snd (rmc_fields float_of_string mr g)))
     = snd (rmc_fields float_of_string mr (snd (gsa_fields float_of_string line g)))
  /\ snd (gsa_fields float_of_string line
            (snd (gga_fields float_of_string int_of_string mg g)))
     = snd (gga_fields float_of_string int_of_string mg
              (snd (gsa_fields float_of_string line g))).
Proof.
  destruct (rmc_fields_patches float_of_string mr) as (r1 & p1 & G1 & H1).
  destruct (gga_fields_patches float_of_string int_of_string mg) as (r2 & p2 & G2 & H2).
  destruct (gsa_fields_patches float_of_string line) as (r3 & p3 & G3 & H3).
  rewrite !H1, !H2, !H3. simpl.
  refine (conj _ (conj _ _)).
  - symmetry. apply apply_patch_commute. left. split; assumption.
  - symmetry. apply apply_patch_commute. right; left. split; assumption.
  - symmetry. apply apply_patch_commute. right; right. split; assumption.
Qed.

End PatchClaims.

(** ** What a window makes of its lines *)

Lemma apply_gsa_group (p : patch) (g : gps_data) :
  gsa_group p ->
  valid (apply_patch p g) = valid g /\ lat (apply_patch p g) = lat g
  /\ lon (apply_patch p g) = lon g.
Proof.
  destruct p. unfold gsa_group, apply_patch, pick. simpl.
  intros (_ & -> & -> & _ & _ & -> & _ & _). repeat split.
Qed.

Lemma apply_gga_group (p : patch) (g : gps_data) :
  gga_group p ->
  valid (apply_patch p g) = valid g /\ lat (apply_patch p g) = lat g
  /\ lon (apply_patch p g) = lon g.
Proof.
  destruct p. unfold gga_group, apply_patch, pick. simpl.
  intros (_ & -> & -> & _ & _ & -> & _ & _). repeat split.
Qed.

Section StepFacts.

Variable pynmea2_parse : string -> pyres nmea_sentence.
Variable float_of_string : string -> pyres float.
Variable int_of_string : string -> pyres Z.

Lemma gsa_outcome (line : string) (g : gps_data) :
  (gsa_raises float_of_string line /\ gsa_fields float_of_string line g = (Raise, g))
  \/ (~ gsa_raises float_of_string line /\ fst (gsa_fields float_of_string line g) = Ok tt).
Proof.
  destruct (PyStr.contains "GSA" line) eqn:Hc.
  - destruct (Nat.leb_spec 16 (List.length (PyStr.split ","%char line))) as [Hl|Hl].
    + rewrite (gsa_fields_run float_of_string line g Hc Hl).
      destruct (pdop_value float_of_string (PyStr.split ","%char line)) as [p|] eqn:Hp.
      * right. split; [|reflexivity]. intros (_ & _ & H). congruence.
      * left. split; [|reflexivity]. repeat split; assumption.
    + right. rewrite gsa_fields_skipped by (right; exact Hl).
      split; [|reflexivity]. intros (_ & H & _). lia.
  - right. rewrite gsa_fields_skipped by (left; exact Hc).
    split; [|reflexivity]. intros (H & _). congruence.
Qed.

Lemma gsa_fields_keeps (line : string) (g : gps_data) :
  valid (snd (gsa_fields float_of_string line g)) = valid g
  /\ lat (snd (gsa_fields float_of_string line g)) = lat g
  /\ lon (snd (gsa_fields float_of_string line g)) = lon g.
Proof.
  destruct (gsa_fields_patches float_of_string line) as (r & p & Gp & H).
  rewrite H. simpl. apply apply_gsa_group, Gp.
Qed.

Lemma gga_fields_keeps (m : gga_sentence) (g : gps_data) :
  valid (snd (gga_fields float_of_string int_of_string m g)) = valid g
  /\ lat (snd (gga_fields float_of_string int_of_string m g)) = lat g
  /\ lon (snd (gga_fields float_of_string int_of_string m g)) = lon g.
Proof.
  destruct (gga_fields_patches float_of_string int_of_string m) as (r & p & Gp & H).
  rewrite H. simpl. apply apply_gga_group, Gp.
Qed.

(** The part of the RMC branch after the position. *)
Lemma rmc_tail_preserves (I : gps_data -> Prop) (m : rmc_sentence) :
  (forall c, stable I (with_course c)) ->
  (forall x, stable I (with_speed_m_s x)) ->
  (forall t, stable I (with_posTime t)) ->
  preserves I (bind (rmc_course float_of_string m)
                 (fun _ => bind (rmc_speed float_of_string m) (fun _ => rmc_posTime m))).
Proof.
  intros Hc Hv Ht.
  apply preserves_bind; [apply rmc_course_preserves; intros c _; apply Hc | intros _].
  apply preserves_bind; [apply rmc_speed_preserves; intros x _; apply Hv | intros _].
  apply rmc_posTime_preserves, Ht.
Qed.

(** The RMC branch, once the status is dealt with. *)
Lemma rmc_fields_split (m : rmc_sentence) (g : gps_data) :
  rmc_fields float_of_string m g
  = bind (rmc_position m)
         (fun _ => bind (rmc_course float_of_string m)
                     (fun _ => bind (rmc_speed float_of_string m) (fun _ => rmc_posTime m)))
         (if String.eqb (status m) "A" then with_valid true g else g).
Proof. unfold rmc_fields. unfold bind at 1. rewrite rmc_status_run. reflexivity. Qed.

Lemma bind_completed {A B : Type} (c : decode A) (k : A -> decode B) (g g1 : gps_data)
    (a : A) :
  c g = (Ok a, g1) -> bind c k g = k a g1.
Proof. intros H. unfold bind. rewrite H. reflexivity. Qed.

Lemma bind_raised {A B : Type} (c : decode A) (k : A -> decode B) (g g1 : gps_data) :
  c g = (Raise, g1) -> bind c k g = (Raise, g1).
Proof. intros H. unfold bind. rewrite H. reflexivity. Qed.

Lemma rmc_fields_valid (m : rmc_sentence) (g : gps_data) :
  valid (snd (rmc_fields float_of_string m g))
  = if String.eqb (status m) "A" then true else valid g.
Proof.
  rewrite rmc_fields_split.
  set (g1 := if String.eqb (status m) "A" then with_valid true g else g).
  assert (H1 : valid g1 = if String.eqb (status m) "A" then true else valid g)
    by (unfold g1; destruct (String.eqb (status m) "A"); reflexivity).
  rewrite <- H1.
  apply (preserves_bind (fun g' => valid g' = valid g1)); [| |reflexivity].
  - apply rmc_position_preserves. intros la lo _ _ _ _ g0 H0. exact H0.
  - intros _. apply rmc_tail_preserves; intros ? g0 H0; exact H0.
Qed.

Lemma rmc_position_dichotomy (m : rmc_sentence) (g : gps_data) :
  (exists la lo, position_of m la lo
                 /\ rmc_position m g = (Ok tt, with_lon (Some lo) (with_lat (Some la) g)))
  \/ ((forall la lo, ~ position_of m la lo) /\ snd (rmc_position m g) = g).
Proof.
  unfold rmc_position, position_of, bind, eval, ret, assign, skip.
  destruct (latitude m) as [la|] eqn:Hla; simpl;
    [|right; split; [intros la lo (H & _); discriminate | reflexivity]].
  destruct (PyFloat.truthy la) eqn:Tla; simpl;
    [|right; split; [intros la' lo (H & _ & T & _); congruence | reflexivity]].
  destruct (longitude m) as [lo|] eqn:Hlo; simpl;
    [|right; split; [intros la' lo (_ & H & _); discriminate | reflexivity]].
  destruct (PyFloat.truthy lo) eqn:Tlo; simpl;
    [|right; split; [intros la' lo' (_ & H & _ & T); congruence | reflexivity]].
  left. exists la, lo. repeat split; assumption.
Qed.

Lemma rmc_fields_position (m : rmc_sentence) (g : gps_data) :
  (exists la lo, position_of m la lo
                 /\ lat (snd (rmc_fields float_of_string m g)) = Some la
                 /\ lon (snd (rmc_fields float_of_string m g)) = Some lo)
  \/ ((forall la lo, ~ position_of m la lo)
      /\ lat (snd (rmc_fields float_of_string m g)) = lat g
      /\ lon (snd (rmc_fields float_of_string m g)) = lon g).
Proof.
  rewrite rmc_fields_split.
  set (g1 := if String.eqb (status m) "A" then with_valid true g else g).
  assert (H1 : lat g1 = lat g /\ lon g1 = lon g)
    by (unfold g1; destruct (String.eqb (status m) "A"); split; reflexivity).
  destruct H1 as [Hla Hlo].
  destruct (rmc_position_dichotomy m g1) as [(la & lo & Hp & E) | (Hn & E)].
  - left. exists la, lo. split; [exact Hp|].
    rewrite (bind_completed _ _ _ _ _ E).
    apply (rmc_tail_preserves (fun g' => lat g' = Some la /\ lon g' = Some lo));
      try (intros ? g0 H0; exact H0).
    split; reflexivity.
  - right. split; [exact Hn|]. rewrite <- Hla, <- Hlo.
    destruct (rmc_position m g1) as [[[]|] g2] eqn:E2; simpl in E; subst g2.
    + rewrite (bind_completed _ _ _ _ _ E2).
      apply (rmc_tail_preserves (fun g' => lat g' = lat g1 /\ lon g' = lon g1));
        try (intros ? g0 H0; exact H0).
      split; reflexivity.
    + rewrite (bind_raised _ _ _ _ E2). split; reflexivity.
Qed.

(** The branch of a sentence. *)
Lemma decode_line_dichotomy (line : string) (g : gps_data) :
  (exists msg, reaches pynmea2_parse float_of_string line msg
               /\ snd (decode_line pynmea2_parse float_of_string int_of_string line g)
                  = snd (match msg with
                         | RMC m => rmc_fields float_of_string m
                         | GGA m => gga_fields float_of_string int_of_string m
                         | OtherSentence => skip
                         end (snd (gsa_fields float_of_string line g))))
  \/ ((forall msg, ~ reaches pynmea2_parse float_of_string line msg)
      /\ (snd (decode_line pynmea2_parse float_of_string int_of_string line g) = g
          \/ snd (decode_line pynmea2_parse float_of_string int_of_string line g)
             = snd (gsa_fields float_of_string line g))).
Proof.
  destruct (PyStr.starts_with_dollar line) eqn:Hd.
  - rewrite decode_line_run by exact Hd.
    destruct (gsa_outcome line g) as [[Hr E] | [Hr E]].
    + right. rewrite E. split; [|left; reflexivity].
      intros msg (_ & H & _). exact (H Hr).
    + destruct (gsa_fields float_of_string line g) as [[[]|] g1]; simpl in E;
        [|discriminate].
      unfold bind, eval. simpl.
      destruct (pynmea2_parse line) as [msg|] eqn:Hp.
      * left. exists msg. split; [repeat split; assumption | reflexivity].
      * right. split; [|right; reflexivity].
        intros msg (_ & _ & H). congruence.
  - right. unfold decode_line. rewrite Hd. split; [|left; reflexivity].
    intros msg (H & _). congruence.
Qed.

Lemma unreached_keeps (line : string) (g g' : gps_data) :
  g' = g \/ g' = snd (gsa_fields float_of_string line g) ->
  valid g' = valid g /\ lat g' = lat g /\ lon g' = lon g.
Proof.
  intros [-> | ->]; [repeat split | apply gsa_fields_keeps].
Qed.

Lemma valid_step (line : string) (g : gps_data) :
  (sets_valid pynmea2_parse float_of_string line
   /\ valid (snd (decode_line pynmea2_parse float_of_string int_of_string line g)) = true)
  \/ (~ sets_valid pynmea2_parse float_of_string line
      /\ valid (snd (decode_line pynmea2_parse float_of_string int_of_string line g))
         = valid g).
Proof.
  destruct (decode_line_dichotomy line g) as [(msg & Hr & E) | (Hn & E)].
  - rewrite E. destruct (gsa_fields_keeps line g) as (Hv & _ & _).
    destruct msg as [m|m|].
    + rewrite rmc_fields_valid, Hv.
      destruct (String.eqb_spec (status m) "A") as [HA|HA].
      * left. split; [exists m; split; assumption | reflexivity].
      * right. split; [|reflexivity].
        intros (m' & (_ & _ & Hp') & HA'). destruct Hr as (_ & _ & Hp).
        rewrite Hp in Hp'. inversion Hp'; subst. exact (HA HA').
    + right. destruct (gga_fields_keeps m (snd (gsa_fields float_of_string line g)))
        as (Hv' & _ & _).
      rewrite Hv', Hv. split; [|reflexivity].
      intros (m' & (_ & _ & Hp') & _). destruct Hr as (_ & _ & Hp). congruence.
    + right. simpl. split; [|exact Hv].
      intros (m' & (_ & _ & Hp') & _). destruct Hr as (_ & _ & Hp). congruence.
  - right. destruct (unreached_keeps line g _ E) as (Hv & _ & _).
    split; [|exact Hv]. intros (m & Hr & _). exact (Hn _ Hr).
Qed.

Lemma position_step (line : string) (g : gps_data) :
  (exists la lo,
     stores_position pynmea2_parse float_of_string line la lo
     /\ lat (snd (decode_line pynmea2_parse float_of_string int_of_string line g)) = Some la
     /\ lon (snd (decode_line pynmea2_parse float_of_string int_of_string line g)) = Some lo)
  \/ ((forall la lo, ~ stores_position pynmea2_parse float_of_string line la lo)
      /\ lat (snd (decode_line pynmea2_parse float_of_string int_of_string line g)) = lat g
      /\ lon (snd (decode_line pynmea2_parse float_of_string int_of_string line g)) = lon g).
Proof.
  destruct (decode_line_dichotomy line g) as [(msg & Hr & E) | (Hn & E)].
  - rewrite E. destruct (gsa_fields_keeps line g) as (_ & Hla & Hlo).
    destruct msg as [m|m|].
    + destruct (rmc_fields_position m (snd (gsa_fields float_of_string line g)))
        as [(la & lo & Hp & H1 & H2) | (Hnp & H1 & H2)].
      * left. exists la, lo. split; [exists m; split; assumption | split; assumption].
      * right. rewrite H1, H2, Hla, Hlo. split; [|split; reflexivity].
        intros la lo (m' & (_ & _ & Hp') & Hpos). destruct Hr as (_ & _ & Hp).
        rewrite Hp in Hp'. inversion Hp'; subst. exact (Hnp la lo Hpos).
    + right. destruct (gga_fields_keeps m (snd (gsa_fields float_of_string line g)))
        as (_ & H1 & H2).
      rewrite H1, H2, Hla, Hlo. split; [|split; reflexivity].
      intros la lo (m' & (_ & _ & Hp') & _). destruct Hr as (_ & _ & Hp). congruence.
    + right. simpl. split; [|split; assumption].
      intros la lo (m' & (_ & _ & Hp') & _). destruct Hr as (_ & _ & Hp). congruence.
  - right. destruct (unreached_keeps line g _ E) as (_ & Hla & Hlo).
    split; [|split; assumption]. intros la lo (m & Hr & _). exact (Hn _ Hr).
Qed.

End StepFacts.

Section WindowFacts.

Variable pynmea2_parse : string -> pyres nmea_sentence.
Variable float_of_string : string -> pyres float.
Variable int_of_string : string -> pyres Z.

Lemma window_keeps_constants (now : string) (reads : list serial_read) :
  gps_timestamp (parse_gps pynmea2_parse float_of_string int_of_string now reads) = now
  /\ (fix_type (parse_gps pynmea2_parse float_of_string int_of_string now reads) = "Invalid"
      \/ fix_type (parse_gps pynmea2_parse float_of_string int_of_string now reads) = "2D"
      \/ fix_type (parse_gps pynmea2_parse float_of_string int_of_string now reads) = "3D").
Proof.
  split.
  - apply (parse_gps_invariant pynmea2_parse float_of_string int_of_string
             (fun g => gps_timestamp g = now)); [reflexivity|].
    intros b _ g Ht.
    destruct (decode_line_patches pynmea2_parse float_of_string int_of_string (line_of b))
      as (r & p & _ & H).
    rewrite H. exact Ht.
  - apply (parse_gps_invariant pynmea2_parse float_of_string int_of_string
             (fun g => fix_type g = "Invalid" \/ fix_type g = "2D" \/ fix_type g = "3D"));
      [left; reflexivity|].
    intros b _. apply decode_line_preserves.
    + unfold gsa_fields. preserve; intros g Hg; simpl; auto.
    + intros m _. apply rmc_fields_preserves.
      * apply rmc_status_preserves. intros _ g Hg. exact Hg.
      * apply rmc_position_preserves. intros la lo _ _ _ _ g Hg. exact Hg.
      * intros c _ g Hg. exact Hg.
      * intros x _ g Hg. exact Hg.
      * intros t g Hg. exact Hg.
    + intros m _. apply gga_fields_preserves; intros ? g Hg; exact Hg.
Qed.

(** X11.  The fix of a window carries the clock read at the entry of
    [parse_gps] as its capture time, whatever the window holds, and its fix
    type is one of Invalid, 2D and 3D. *)
Theorem window_constants (now : string) (reads : list serial_read) :
  gps_timestamp (parse_gps pynmea2_parse float_of_string int_of_string now reads) = now
  /\ (fix_type (parse_gps pynmea2_parse float_of_string int_of_string now reads) = "Invalid"
      \/ fix_type (parse_gps pynmea2_parse float_of_string int_of_string now reads) = "2D"
      \/ fix_type (parse_gps pynmea2_parse float_of_string int_of_string now reads) = "3D").
Proof.
  destruct (window_keeps_constants now reads) as [Ht Hf].
  split; [exact Ht | exact Hf].
Qed.

(** The coordinates of the fix of a window go together and are not zero. *)
Lemma window_paired (now : string) (reads : list serial_read) :
  coordinates_paired (parse_gps pynmea2_parse float_of_string int_of_string now reads).
Proof.
  apply parse_gps_invariant.
  - unfold coordinates_paired. simpl. repeat split; intros; discriminate.
  - intros b _ g Hg.
    destruct (position_step pynmea2_parse float_of_string int_of_string (line_of b) g)
      as [(la & lo & (m & _ & (_ & _ & Tla & Tlo)) & E1 & E2) | (_ & E1 & E2)];
      unfold coordinates_paired; rewrite E1, E2.
    + split; [split; discriminate|].
      split; intros z Hz; inversion Hz; subst; assumption.
    + exact Hg.
Qed.

Lemma valid_fold (reads : list serial_read) (g : gps_data) :
  valid (fold_left (iteration pynmea2_parse float_of_string int_of_string) reads g) = true
  <-> valid g = true
      \/ exists b, In (Bytes b) reads /\ sets_valid pynmea2_parse float_of_string (line_of b).
Proof.
  revert g. induction reads as [|r reads IH]; intros g; simpl.
  - split; [auto | intros [H | (b & [] & _)]; exact H].
  - rewrite IH. destruct r as [b|]; simpl.
    + unfold iteration, read_and_decode.
      destruct (valid_step pynmea2_parse float_of_string int_of_string (line_of b) g)
        as [[Hs Hv] | [Hs Hv]]; rewrite Hv.
      * split; intros _; [right; exists b; split; [left; reflexivity | exact Hs] | left; reflexivity].
      * split.
        -- intros [H | (b' & Hin & H)]; [left; exact H|].
           right. exists b'. split; [right; exact Hin | exact H].
        -- intros [H | (b' & [E | Hin] & H)]; [left; exact H | |].
           ++ inversion E; subst. destruct (Hs H).
           ++ right. exists b'. split; assumption.
    + unfold iteration. simpl. split.
      * intros [H | (b' & Hin & H)]; [left; exact H|].
        right. exists b'. split; [right; exact Hin | exact H].
      * intros [H | (b' & [E | Hin] & H)]; [left; exact H | discriminate |].
        right. exists b'. split; assumption.
Qed.

(** X12.  The fix of a window is valid exactly when one of its lines starts
    with the dollar sign, passes the GSA test without an exception and
    parses as an RMC sentence with status A. *)
Theorem valid_iff (now : string) (reads : list serial_read) :
  valid (parse_gps pynmea2_parse float_of_string int_of_string now reads) = true
  <-> exists b, In (Bytes b) reads /\ sets_valid pynmea2_parse float_of_string (line_of b).
Proof.
  unfold parse_gps. rewrite valid_fold. simpl.
  split; [intros [H | H]; [discriminate | exact H] | intros H; right; exact H].
Qed.

Lemma stores_position_functional (line : string) (la lo la' lo' : float) :
  stores_position pynmea2_parse float_of_string line la lo ->
  stores_position pynmea2_parse float_of_string line la' lo' ->
  la' = la /\ lo' = lo.
Proof.
  intros (m & (_ & _ & Hp) & (Hla & Hlo & _)) (m' & (_ & _ & Hp') & (Hla' & Hlo' & _)).
  rewrite Hp in Hp'. inversion Hp'; subst m'.
  rewrite Hla in Hla'. rewrite Hlo in Hlo'. inversion Hla'. inversion Hlo'. split; reflexivity.
Qed.

Lemma position_kept (reads : list serial_read) (g : gps_data) :
  (forall b la lo, In (Bytes b) reads ->
     ~ stores_position pynmea2_parse float_of_string (line_of b) la lo) ->
  lat (fold_left (iteration pynmea2_parse float_of_string int_of_string) reads g) = lat g
  /\ lon (fold_left (iteration pynmea2_parse float_of_string int_of_string) reads g) = lon g.
Proof.
  intros H.
  apply (window_invariant pynmea2_parse float_of_string int_of_string
           (fun g' => lat g' = lat g /\ lon g' = lon g)); [split; reflexivity|].
  intros b Hb g0 [H1 H2].
  destruct (position_step pynmea2_parse float_of_string int_of_string (line_of b) g0)
    as [(la & lo & Hs & _) | (_ & E1 & E2)].
  - destruct (H b la lo Hb Hs).
  - rewrite E1, E2. split; assumption.
Qed.

Lemma position_fold (reads : list serial_read) (g : gps_data) :
  lat (fold_left (iteration pynmea2_parse float_of_string int_of_string) reads g) <> None
  <-> lat g <> None
      \/ exists b la lo,
           In (Bytes b) reads
           /\ stores_position pynmea2_parse float_of_string (line_of b) la lo.
Proof.
  revert g. induction reads as [|r reads IH]; intros g; simpl.
  - split; [auto | intros [H | (b & la & lo & [] & _)]; exact H].
  - rewrite IH. destruct r as [b|]; simpl.
    + unfold iteration, read_and_decode.
      destruct (position_step pynmea2_parse float_of_string int_of_string (line_of b) g)
        as [(la & lo & Hs & E1 & _) | (Hs & E1 & _)]; rewrite E1.
      * split; intros _; [|left; discriminate].
        right. exists b, la, lo. split; [left; reflexivity | exact Hs].
      * split.
        -- intros [H | (b' & la & lo & Hin & H)]; [left; exact H|].
           right. exists b', la, lo. split; [right; exact Hin | exact H].
        -- intros [H | (b' & la & lo & [E | Hin] & H)]; [left; exact H | |].
           ++ inversion E; subst. destruct (Hs la lo H).
           ++ right. exists b', la, lo. split; assumption.
    + unfold iteration. simpl. split.
      * intros [H | (b' & la & lo & Hin & H)]; [left; exact H|].
        right. exists b', la, lo. split; [right; exact Hin | exact H].
      * intros [H | (b' & la & lo & [E | Hin] & H)]; [left; exact H | discriminate |].
        right. exists b', la, lo. split; assumption.
Qed.

(** X13.  The position of the fix of a window is the position of the last
    line that carries an RMC sentence with a latitude and a longitude that
    are both non-zero, whatever the status of that sentence; and the fix has
    a position exactly when the window has such a line. *)
Theorem position_of_last_sentence (now : string) :
  (forall before b after la lo,
     stores_position pynmea2_parse float_of_string (line_of b) la lo ->
     (forall b' la' lo', In (Bytes b') after ->
        ~ stores_position pynmea2_parse float_of_string (line_of b') la' lo') ->
     lat (parse_gps pynmea2_parse float_of_string int_of_string now
            (before ++ Bytes b :: after)) = Some la
     /\ lon (parse_gps pynmea2_parse float_of_string int_of_string now
               (before ++ Bytes b :: after)) = Some lo)
  /\ (forall reads,
        lat (parse_gps pynmea2_parse float_of_string int_of_string now reads) <> None
        <-> exists b la lo,
              In (Bytes b) reads
              /\ stores_position pynmea2_parse float_of_string (line_of b) la lo).
Proof.
  split.
  - intros before b after la lo Hs Hafter. unfold parse_gps.
    rewrite fold_left_app. simpl.
    set (g := fold_left (iteration pynmea2_parse float_of_string int_of_string) before
                (initial_gps_data now)).
    destruct (position_kept after
                (iteration pynmea2_parse float_of_string int_of_string g (Bytes b)) Hafter)
      as [E1 E2].
    rewrite E1, E2. unfold iteration, read_and_decode.
    destruct (position_step pynmea2_parse float_of_string int_of_string (line_of b) g)
      as [(la' & lo' & Hs' & H1 & H2) | (Hn & _)].
    + destruct (stores_position_functional _ _ _ _ _ Hs Hs') as [-> ->]. split; assumption.
    + destruct (Hn la lo Hs).
  - intros reads. unfold parse_gps. rewrite position_fold. simpl.
    split; [intros [H | H]; [congruence | exact H] | intros H; right; exact H].
Qed.

(** X14.  The fix of a window passes the test of line 140 exactly when the
    window has a line that carries an RMC sentence with status A and a line
    that carries an RMC sentence with a non-zero latitude and longitude;
    the two need not be the same line. *)
Theorem has_fix_iff (now : string) (reads : list serial_read) :
  has_fix (parse_gps pynmea2_parse float_of_string int_of_string now reads) = true
  <-> (exists b, In (Bytes b) reads /\ sets_valid pynmea2_parse float_of_string (line_of b))
      /\ (exists b la lo,
            In (Bytes b) reads
            /\ stores_position pynmea2_parse float_of_string (line_of b) la lo).
Proof.
  assert (Hv : valid (parse_gps pynmea2_parse float_of_string int_of_string now reads) = true
               <-> exists b, In (Bytes b) reads
                             /\ sets_valid pynmea2_parse float_of_string (line_of b)).
  { unfold parse_gps. rewrite valid_fold. simpl.
    split; [intros [H | H]; [discriminate | exact H] | intros H; right; exact H]. }
  assert (Hl : lat (parse_gps pynmea2_parse float_of_string int_of_string now reads) <> None
               <-> exists b la lo,
                     In (Bytes b) reads
                     /\ stores_position pynmea2_parse float_of_string (line_of b) la lo).
  { unfold parse_gps. rewrite position_fold. simpl.
    split; [intros [H | H]; [congruence | exact H] | intros H; right; exact H]. }
  rewrite <- Hv, <- Hl. clear Hv Hl.
  destruct (window_paired now reads) as (Hp & Hla & Hlo).
  unfold has_fix.
  set (g := parse_gps pynmea2_parse float_of_string int_of_string now reads) in *.
  destruct (valid g); simpl; [|split; [discriminate | intros [H _]; discriminate]].
  destruct (lat g) as [la|] eqn:Ela; simpl.
  - destruct (lon g) as [lo|] eqn:Elo; simpl.
    + rewrite (Hla la eq_refl), (Hlo lo eq_refl). simpl.
      split; [intros _; split; [reflexivity | discriminate] | reflexivity].
    + destruct Hp as [_ Hp]. specialize (Hp eq_refl). discriminate.
  - split; [discriminate | intros [_ H]; destruct (H eq_refl)].
Qed.

End WindowFacts.

(** ** The bytes of a line *)

Lemma decode_ascii_ignore_app (a b : string) :
  PyStr.decode_ascii_ignore (a ++ b)
  = PyStr.decode_ascii_ignore a ++ PyStr.decode_ascii_ignore b.
Proof.
  induction a as [|c a IH]; simpl; [reflexivity|].
  destruct (N_of_ascii c <? 128)%N; simpl; rewrite IH; reflexivity.
Qed.

(** X15.  A byte above 127 anywhere in a line is dropped before the line is
    looked at: the loop does with the line what it does with the line
    without that byte. *)
Theorem noise_byte_is_dropped (pynmea2_parse : string -> pyres nmea_sentence)
    (float_of_string : string -> pyres float) (int_of_string : string -> pyres Z)
    (g : gps_data) (b1 b2 : string) (c : ascii) :
  (128 <= N_of_ascii c)%N ->
  line_of (b1 ++ String c b2) = line_of (b1 ++ b2)
  /\ iteration pynmea2_parse float_of_string int_of_string g (Bytes (b1 ++ String c b2))
     = iteration pynmea2_parse float_of_string int_of_string g (Bytes (b1 ++ b2)).
Proof.
  intros Hc.
  assert (E : line_of (b1 ++ String c b2) = line_of (b1 ++ b2)).
  { unfold line_of. rewrite !decode_ascii_ignore_app. simpl.
    apply N.ltb_ge in Hc. rewrite Hc. reflexivity. }
  split; [exact E|]. unfold iteration, read_and_decode. rewrite E. reflexivity.
Qed.

(** An RMC sentence with a stray byte 0xFF in its middle. *)
Lemma noise_byte_is_dropped_witness :
  iteration Sample.pynmea2_parse Sample.float_of_string Sample.int_of_string
    (initial_gps_data Sample.now)
    (Bytes ("$GPRMC,123519,A,4807" ++ String (ascii_of_nat 255)
              ".038,N,01131.000,E,022.4,084.4,230394,003.1,W*6A"))
  = iteration Sample.pynmea2_parse Sample.float_of_string Sample.int_of_string
      (initial_gps_data Sample.now)
      (Bytes ("$GPRMC,123519,A,4807" ++ ".038,N,01131.000,E,022.4,084.4,230394,003.1,W*6A")).
Proof.
  apply (noise_byte_is_dropped Sample.pynmea2_parse Sample.float_of_string
           Sample.int_of_string (initial_gps_data Sample.now)
           "$GPRMC,123519,A,4807" ".038,N,01131.000,E,022.4,084.4,230394,003.1,W*6A"
           (ascii_of_nat 255)).
  vm_compute. discriminate.
Defined.

Lemma isspace_ascii (c : ascii) : PyStr.isspace c = true -> (N_of_ascii c <? 128)%N = true.
Proof.
  unfold PyStr.isspace. intros H. apply N.ltb_lt.
  apply orb_true_iff in H. destruct H as [H|H]; apply andb_true_iff in H;
    destruct H as [_ H]; apply N.leb_le in H; lia.
Qed.

Lemma blank_decode (ws : string) : blank ws = true -> PyStr.decode_ascii_ignore ws = ws.
Proof.
  induction ws as [|c ws IH]; simpl; [reflexivity|].
  intros H. apply andb_true_iff in H. destruct H as [Hc Hw].
  rewrite (isspace_ascii c Hc), (IH Hw). reflexivity.
Qed.

Lemma lstrip_blank (ws s : string) : blank ws = true -> PyStr.lstrip (ws ++ s) = PyStr.lstrip s.
Proof.
  induction ws as [|c ws IH]; simpl; [reflexivity|].
  intros H. apply andb_true_iff in H. destruct H as [Hc Hw].
  rewrite Hc. apply IH, Hw.
Qed.

Lemma lstrip_all_blank (ws : string) : blank ws = true -> PyStr.lstrip ws = EmptyString.
Proof.
  induction ws as [|c ws IH]; simpl; [reflexivity|].
  intros H. apply andb_true_iff in H. destruct H as [Hc Hw].
  rewrite Hc. apply IH, Hw.
Qed.

Lemma rstrip_all_blank (ws : string) : blank ws = true -> PyStr.rstrip ws = EmptyString.
Proof.
  induction ws as [|c ws IH]; simpl; [reflexivity|].
  intros H. apply andb_true_iff in H. destruct H as [Hc Hw].
  rewrite (IH Hw), Hc. reflexivity.
Qed.

Lemma rstrip_blank (s ws : string) : blank ws = true -> PyStr.rstrip (s ++ ws) = PyStr.rstrip s.
Proof.
  intros Hw. induction s as [|c s IH]; simpl.
  - apply rstrip_all_blank, Hw.
  - rewrite IH. reflexivity.
Qed.

Lemma strip_blank_right (s ws : string) :
  blank ws = true -> PyStr.strip (s ++ ws) = PyStr.strip s.
Proof.
  intros Hw. unfold PyStr.strip. induction s as [|c s IH]; simpl.
  - rewrite (lstrip_all_blank ws Hw). reflexivity.
  - destruct (PyStr.isspace c); [exact IH|].
    apply (rstrip_blank (String c s) ws Hw).
Qed.

(** X16.  ASCII blanks around a line (spaces, tabs, the carriage return and
    line feed that end it) do not count: the loop does with the bytes what it
    does with the bytes without them. *)
Theorem surrounding_blanks_are_dropped (pynmea2_parse : string -> pyres nmea_sentence)
    (float_of_string : string -> pyres float) (int_of_string : string -> pyres Z)
    (g : gps_data) (ws b ws' : string) :
  blank ws = true -> blank ws' = true ->
  line_of (ws ++ b ++ ws') = line_of b
  /\ iteration pynmea2_parse float_of_string int_of_string g (Bytes (ws ++ b ++ ws'))
     = iteration pynmea2_parse float_of_string int_of_string g (Bytes b).
Proof.
  intros Hw Hw'.
  assert (E : line_of (ws ++ b ++ ws') = line_of b).
  { unfold line_of. rewrite !decode_ascii_ignore_app.
    rewrite (blank_decode ws Hw), (blank_decode ws' Hw').
    unfold PyStr.strip at 1. rewrite (lstrip_blank ws _ Hw).
    apply (strip_blank_right _ ws' Hw'). }
  split; [exact E|]. unfold iteration, read_and_decode. rewrite E. reflexivity.
Qed.

(** A GSA sentence after two spaces and before a carriage return and a line
    feed. *)
Lemma surrounding_blanks_are_dropped_witness :
  line_of ("  " ++ Sample.gsa_3d ++ String (ascii_of_nat 13) (String (ascii_of_nat 10) ""))
  = line_of Sample.gsa_3d.
Proof.
  apply (proj1 (surrounding_blanks_are_dropped Sample.pynmea2_parse Sample.float_of_string
                  Sample.int_of_string (initial_gps_data Sample.now)
                  "  " Sample.gsa_3d (String (ascii_of_nat 13) (String (ascii_of_nat 10) ""))
                  eq_refl eq_refl)).
Defined.

(** ** The identifier of the modem *)

Lemma contains_char (c : ascii) (s : string) :
  PyStr.contains (String c EmptyString) s = has_char c s.
Proof.
  induction s as [|c' s IH]; simpl; [reflexivity|].
  destruct (ascii_dec c c') as [E|E].
  - subst. rewrite Ascii.eqb_refl. destruct s; reflexivity.
  - rewrite IH. destruct (Ascii.eqb_spec c' c) as [E'|E']; [congruence | reflexivity].
Qed.

Lemma split_pieces (sep : ascii) (s piece : string) :
  In piece (PyStr.split sep s) -> has_char sep piece = false.
Proof.
  revert piece. induction s as [|c s IH]; simpl; intros piece.
  - intros [<- | []]. reflexivity.
  - destruct (Ascii.eqb c sep) eqn:Ec.
    + intros [<- | H]; [reflexivity | apply IH, H].
    + destruct (PyStr.split sep s) as [|hd tl]; simpl.
      * intros [<- | []]. simpl. rewrite Ec. reflexivity.
      * intros [<- | H]; [|apply IH; right; exact H].
        simpl. rewrite Ec. apply IH. left. reflexivity.
Qed.

Lemma split_not_empty (sep : ascii) (s : string) : PyStr.split sep s <> [].
Proof.
  destruct s as [|c s]; simpl; [discriminate|].
  destruct (Ascii.eqb c sep); [discriminate|].
  destruct (PyStr.split sep s); discriminate.
Qed.

Lemma last_in {A : Type} (l : list A) (d : A) : l <> [] -> In (last l d) l.
Proof.
  induction l as [|a l IH]; [congruence|]. intros _.
  destruct l as [|b l]; [left; reflexivity|].
  right. apply IH. discriminate.
Qed.

Lemma lstrip_keeps_out (c : ascii) (s : string) :
  has_char c s = false -> has_char c (PyText.lstrip s) = false.
Proof.
  induction s as [|a s IH]; simpl; [reflexivity|].
  intros H. apply orb_false_iff in H. destruct H as [Ha Hs].
  destruct (PyText.isspace a); [apply IH, Hs|].
  simpl. rewrite Ha, Hs. reflexivity.
Qed.

Lemma rstrip_keeps_out (c : ascii) (s : string) :
  has_char c s = false -> has_char c (PyText.rstrip s) = false.
Proof.
  induction s as [|a s IH]; simpl; [reflexivity|].
  intros H. apply orb_false_iff in H. destruct H as [Ha Hs].
  specialize (IH Hs). destruct (PyText.rstrip s) as [|b r].
  - destruct (PyText.isspace a); simpl; [reflexivity|]. rewrite Ha. reflexivity.
  - simpl in *. rewrite Ha, IH. reflexivity.
Qed.

Lemma rstrip_cons (c : ascii) (s : string) :
  PyText.isspace c = false -> PyText.rstrip (String c s) = String c (PyText.rstrip s).
Proof.
  intros H. simpl. destruct (PyText.rstrip s); [rewrite H|]; reflexivity.
Qed.

Lemma rstrip_twice (s : string) : PyText.rstrip (PyText.rstrip s) = PyText.rstrip s.
Proof.
  induction s as [|c s IH]; simpl; [reflexivity|].
  destruct (PyText.rstrip s) as [|b r] eqn:E.
  - destruct (PyText.isspace c) eqn:Hc; simpl; [reflexivity|]. rewrite Hc. reflexivity.
  - change (PyText.rstrip (String c (String b r))) with
      (match PyText.rstrip (String b r) with
       | EmptyString => if PyText.isspace c then EmptyString else String c EmptyString
       | x => String c x
       end).
    rewrite IH. reflexivity.
Qed.

Lemma lstrip_head (s : string) :
  PyText.lstrip s = EmptyString
  \/ exists c r, PyText.lstrip s = String c r /\ PyText.isspace c = false.
Proof.
  induction s as [|c s IH]; simpl; [left; reflexivity|].
  destruct (PyText.isspace c) eqn:Hc; [exact IH|].
  right. exists c, s. split; [reflexivity | exact Hc].
Qed.

Lemma strip_twice (s : string) : PyText.strip (PyText.strip s) = PyText.strip s.
Proof.
  unfold PyText.strip.
  destruct (lstrip_head s) as [E | (c & r & E & Hc)]; rewrite E.
  - reflexivity.
  - rewrite (rstrip_cons c r Hc). simpl PyText.lstrip. rewrite Hc.
    rewrite <- (rstrip_cons c r Hc). apply rstrip_twice.
Qed.

Lemma scan_equipment_id_found (lines : list string) (imei : string) :
  scan_equipment_id lines = Some imei ->
  exists line,
    In line lines /\ PyStr.contains "equipment id" line = true
    /\ imei = PyText.strip (last (PyStr.split ":"%char line) EmptyString).
Proof.
  induction lines as [|line lines IH]; simpl; [discriminate|].
  destruct (PyStr.contains "equipment id" line) eqn:Hc.
  - intros H. inversion H. exists line. repeat split; [left; reflexivity | exact Hc].
  - intros H. destruct (IH H) as (l & Hin & Hl & E).
    exists l. repeat split; [right; exact Hin | exact Hl | exact E].
Qed.

(** X17.  The identifier [get_imei_mmcli] returns never contains a colon and
    never begins or ends with white space, whatever [mmcli] printed and
    whether or not it ran. *)
Theorem imei_is_clean (run : pyres string) :
  PyStr.contains ":" (get_imei_mmcli run) = false
  /\ PyText.strip (get_imei_mmcli run) = get_imei_mmcli run.
Proof.
  unfold get_imei_mmcli. destruct run as [stdout|]; [|split; reflexivity].
  destruct (scan_equipment_id (PyText.splitlines stdout)) as [imei|] eqn:Hs;
    [|split; reflexivity].
  destruct (scan_equipment_id_found _ _ Hs) as (line & _ & _ & ->).
  split; [|apply strip_twice].
  rewrite contains_char. unfold PyText.strip.
  apply rstrip_keeps_out, lstrip_keeps_out.
  apply (split_pieces ":"%char line), last_in, split_not_empty.
Qed.

Lemma prefix_iff (a s : string) :
  String.prefix a s = true <-> exists post, s = a ++ post.
Proof.
  revert s. induction a as [|x a IH]; intros s.
  - split; [intros _; exists s; reflexivity | intros _; destruct s; reflexivity].
  - destruct s as [|y s]; simpl.
    + split; [discriminate | intros [post H]; discriminate].
    + destruct (ascii_dec x y) as [E|E].
      * subst y. split.
        -- intros H. apply IH in H. destruct H as [post H]. exists post. rewrite H. reflexivity.
        -- intros [post H]. apply IH. exists post. inversion H. reflexivity.
      * split; [discriminate | intros [post H]; inversion H; congruence].
Qed.

Lemma contains_unfold (sub s : string) :
  PyStr.contains sub s
  = if String.prefix sub s then true
    else match s with
         | EmptyString => false
         | String _ rest => PyStr.contains sub rest
         end.
Proof. destruct s; reflexivity. Qed.

Lemma contains_iff (sub s : string) :
  PyStr.contains sub s = true <-> exists pre post, s = pre ++ sub ++ post.
Proof.
  induction s as [|c s IH]; rewrite contains_unfold.
  - destruct (String.prefix sub EmptyString) eqn:Hp.
    + split; [|reflexivity]. intros _. apply prefix_iff in Hp. destruct Hp as [post H].
      exists EmptyString, post. exact H.
    + split; [discriminate|]. intros (pre & post & H).
      destruct pre; [|discriminate]. simpl in H.
      assert (Hp' : String.prefix sub EmptyString = true)
        by (apply prefix_iff; exists post; exact H).
      congruence.
  - destruct (String.prefix sub (String c s)) eqn:Hp.
    + split; [|reflexivity]. intros _. apply prefix_iff in Hp. destruct Hp as [post H].
      exists EmptyString, post. exact H.
    + rewrite IH. split.
      * intros (pre & post & H). exists (String c pre), post. simpl. rewrite H. reflexivity.
      * intros (pre & post & H). destruct pre as [|c' pre]; simpl in H.
        -- assert (Hp' : String.prefix sub (String c s) = true)
             by (apply prefix_iff; exists post; exact H).
           congruence.
        -- inversion H. exists pre, post. reflexivity.
Qed.

Lemma append_assoc (a b c : string) : (a ++ b) ++ c = a ++ b ++ c.
Proof. induction a as [|x a IH]; simpl; [reflexivity | rewrite IH; reflexivity]. Qed.

Lemma contains_inside (sub pre s post : string) :
  PyStr.contains sub s = true -> PyStr.contains sub (pre ++ s ++ post) = true.
Proof.
  rewrite !contains_iff. intros (a & b & ->).
  exists (pre ++ a), (b ++ post). rewrite !append_assoc. reflexivity.
Qed.

Lemma splitlines_cons (c : ascii) (rest : string) :
  PyText.splitlines (String c rest)
  = if PyText.is_linebreak c then
      if (N_of_ascii c =? 13)%N then
        match rest with
        | String c' rest' =>
            if (N_of_ascii c' =? 10)%N then EmptyString :: PyText.splitlines rest'
            else EmptyString :: PyText.splitlines rest
        | EmptyString => [EmptyString]
        end
      else EmptyString :: PyText.splitlines rest
    else
      match PyText.splitlines rest with
      | [] => [String c EmptyString]
      | hd :: tl => String c hd :: tl
      end.
Proof. destruct rest; reflexivity. Qed.

(** The first line of a text begins the text, and every line lies in it. *)
Lemma splitlines_inside (n : nat) (s : string) :
  (String.length s <= n)%nat ->
  (forall hd tl, PyText.splitlines s = hd :: tl -> exists post, s = hd ++ post)
  /\ (forall line, In line (PyText.splitlines s) -> exists pre post, s = pre ++ line ++ post).
Proof.
  revert s. induction n as [|n IH]; intros s Hn.
  - destruct s; [|simpl in Hn; lia]. simpl. split; [discriminate | intros line []].
  - destruct s as [|c rest]; [simpl; split; [discriminate | intros line []]|].
    simpl in Hn. assert (Hrest : (String.length rest <= n)%nat) by lia.
    destruct (IH rest Hrest) as [IHh IHi].
    assert (Hshift : forall line, In line (PyText.splitlines rest) ->
                       exists pre post, String c rest = pre ++ line ++ post).
    { intros line H. destruct (IHi line H) as (pre & post & E).
      exists (String c pre), post. simpl. rewrite E. reflexivity. }
    rewrite splitlines_cons.
    destruct (PyText.is_linebreak c).
    + assert (Hempty : forall line tl, (forall l, In l tl -> exists pre post,
                           String c rest = pre ++ l ++ post) ->
                         In line (EmptyString :: tl) ->
                         exists pre post, String c rest = pre ++ line ++ post).
      { intros line tl Htl [<- | H]; [exists EmptyString, (String c rest); reflexivity|].
        apply Htl, H. }
      destruct (N_of_ascii c =? 13)%N.
      * destruct rest as [|c' rest'].
        -- split.
           ++ intros hd tl H. inversion H. exists (String c EmptyString). reflexivity.
           ++ intros line [<- | []]. exists EmptyString, (String c EmptyString). reflexivity.
        -- destruct (N_of_ascii c' =? 10)%N.
           ++ split.
              ** intros hd tl H. inversion H. exists (String c (String c' rest')). reflexivity.
              ** intros line. apply Hempty. intros l Hl.
                 simpl in Hrest.
                 destruct (IH rest' ltac:(lia)) as [_ IHi'].
                 destruct (IHi' l Hl) as (pre & post & E).
                 exists (String c (String c' pre)), post. simpl. rewrite E. reflexivity.
           ++ split.
              ** intros hd tl H. inversion H. exists (String c (String c' rest')). reflexivity.
              ** intros line. apply Hempty. exact Hshift.
      * split.
        -- intros hd tl H. inversion H. exists (String c rest). reflexivity.
        -- intros line. apply Hempty. exact Hshift.
    + destruct (PyText.splitlines rest) as [|hd0 tl0] eqn:Er.
      * split.
        -- intros hd tl H. inversion H. exists rest. reflexivity.
        -- intros line [<- | []]. exists EmptyString, rest. reflexivity.
      * destruct (IHh hd0 tl0 eq_refl) as [post0 E0]. split.
        -- intros hd tl H. inversion H. exists post0. simpl. rewrite E0. reflexivity.
        -- intros line [<- | H].
           ++ exists EmptyString, post0. simpl. rewrite E0. reflexivity.
           ++ apply Hshift. right. exact H.
Qed.

Lemma scan_equipment_id_none (lines : list string) :
  (forall line, In line lines -> PyStr.contains "equipment id" line = false) ->
  scan_equipment_id lines = None.
Proof.
  induction lines as [|line lines IH]; intros H; simpl; [reflexivity|].
  rewrite (H line (or_introl eq_refl)). apply IH. intros l Hl. apply H. right. exact Hl.
Qed.

(** X18.  [get_imei_mmcli] returns UNKNOWN when [mmcli] could not be run,
    and when its output does not contain the words "equipment id"
    anywhere. *)
Theorem imei_unknown :
  get_imei_mmcli Raise = "UNKNOWN"
  /\ (forall stdout,
        PyStr.contains "equipment id" stdout = false ->
        get_imei_mmcli (Ok stdout) = "UNKNOWN").
Proof.
  split; [reflexivity|]. intros stdout H. unfold get_imei_mmcli.
  rewrite scan_equipment_id_none; [reflexivity|].
  intros line Hin. destruct (PyStr.contains "equipment id" line) eqn:Hc; [|reflexivity].
  destruct (splitlines_inside (String.length stdout) stdout (le_n _)) as [_ Hi].
  destruct (Hi line Hin) as (pre & post & E).
  rewrite E, (contains_inside "equipment id" pre line post Hc) in H. discriminate.
Qed.

(** An output of [mmcli] that reports no modem. *)
Lemma imei_unknown_witness :
  get_imei_mmcli (Ok "error: couldn't find modem") = "UNKNOWN".
Proof.
  apply (proj2 imei_unknown "error: couldn't find modem"). reflexivity.
Defined.

Lemma splitlines_line (line rest : string) :
  one_line line = true ->
  PyText.splitlines (line ++ String (ascii_of_nat 10) rest) = line :: PyText.splitlines rest.
Proof.
  induction line as [|c line IH]; intros H.
  - simpl. destruct rest; reflexivity.
  - simpl in H. apply andb_true_iff in H. destruct H as [Hc Hl].
    apply negb_true_iff in Hc.
    change (String c line ++ String (ascii_of_nat 10) rest)
      with (String c (line ++ String (ascii_of_nat 10) rest)).
    rewrite splitlines_cons, Hc, (IH Hl). reflexivity.
Qed.

Lemma splitlines_unlines (lines : list string) :
  forallb one_line lines = true -> PyText.splitlines (unlines lines) = lines.
Proof.
  induction lines as [|line lines IH]; simpl; [reflexivity|].
  intros H. apply andb_true_iff in H. destruct H as [Hl Hr].
  rewrite (splitlines_line line _ Hl), (IH Hr). reflexivity.
Qed.

Lemma scan_equipment_id_skip (before rest : list string) :
  (forall line, In line before -> PyStr.contains "equipment id" line = false) ->
  scan_equipment_id (before ++ rest) = scan_equipment_id rest.
Proof.
  induction before as [|line before IH]; intros H; simpl; [reflexivity|].
  rewrite (H line (or_introl eq_refl)). apply IH. intros l Hl. apply H. right. exact Hl.
Qed.

Lemma split_app_sep (sep : ascii) (a b : string) :
  PyStr.split sep (a ++ String sep b) = (PyStr.split sep a ++ PyStr.split sep b)%list.
Proof.
  induction a as [|c a IH]; simpl.
  - rewrite Ascii.eqb_refl. reflexivity.
  - destruct (Ascii.eqb c sep); [rewrite IH; reflexivity|].
    rewrite IH. pose proof (split_not_empty sep a) as Hn.
    destruct (PyStr.split sep a) as [|hd tl]; [congruence | reflexivity].
Qed.

Lemma split_no_sep (sep : ascii) (s : string) :
  has_char sep s = false -> PyStr.split sep s = [s].
Proof.
  induction s as [|c s IH]; simpl; [reflexivity|].
  intros H. apply orb_false_iff in H. destruct H as [Hc Hs].
  rewrite Hc, (IH Hs). reflexivity.
Qed.

Lemma last_app_one {A : Type} (l : list A) (a d : A) : last (l ++ [a]) d = a.
Proof.
  induction l as [|x l IH]; simpl; [reflexivity|].
  destruct (l ++ [a])%list eqn:E; [destruct l; discriminate | exact IH].
Qed.

(** X19.  On an output made of lines, where the first line that contains
    "equipment id" reads as a label, a colon and a value without a colon,
    [get_imei_mmcli] returns the value without the white space around it. *)
Theorem imei_of_listing (before after : list string) (label value : string) :
  (forall line, In line before -> PyStr.contains "equipment id" line = false) ->
  PyStr.contains "equipment id" label = true ->
  has_char ":"%char value = false ->
  forallb one_line (before ++ (label ++ String ":"%char value) :: after) = true ->
  get_imei_mmcli (Ok (unlines (before ++ (label ++ String ":"%char value) :: after)))
  = PyText.strip value.
Proof.
  intros Hb Hl Hv Hlines. unfold get_imei_mmcli.
  rewrite (splitlines_unlines _ Hlines), (scan_equipment_id_skip _ _ Hb). simpl.
  assert (Hc : PyStr.contains "equipment id" (label ++ String ":"%char value) = true).
  { pose proof (contains_inside "equipment id" EmptyString label (String ":"%char value) Hl)
      as H. exact H. }
  rewrite Hc, split_app_sep, (split_no_sep _ _ Hv), last_app_one. reflexivity.
Qed.

(** The hardware section of a listing of [mmcli]. *)
Lemma imei_of_listing_witness :
  get_imei_mmcli
    (Ok (unlines (["  Hardware |   manufacturer: QUALCOMM INCORPORATED"]
                    ++ ("           |   equipment id" ++ String ":"%char " 352099001761481")
                    :: ["           |   supported: gsm-umts, lte"])))
  = PyText.strip " 352099001761481".
Proof.
  apply (imei_of_listing ["  Hardware |   manufacturer: QUALCOMM INCORPORATED"]
           ["           |   supported: gsm-umts, lte"]
           "           |   equipment id" " 352099001761481").
  - intros line [<- | []]. reflexivity.
  - reflexivity.
  - reflexivity.
  - reflexivity.
Defined.

(** ** The log of the main program *)

Lemma has_fix_coordinates (g : gps_data) :
  has_fix g = true ->
  exists la lo, lat g = Some la /\ lon g = Some lo
                /\ PyFloat.truthy la = true /\ PyFloat.truthy lo = true.
Proof.
  unfold has_fix, coordinate_truthy. intros H.
  apply andb_true_iff in H. destruct H as [H Hlo].
  apply andb_true_iff in H. destruct H as [_ Hla].
  destruct (lat g) as [la|]; [|discriminate]. destruct (lon g) as [lo|]; [|discriminate].
  exists la, lo. repeat split; assumption.
Qed.

Lemma Forall2_right {A B : Type} (R : A -> B -> Prop) (l : list A) (l' : list B) :
  Forall2 R l l' -> Forall (fun b => exists a, In a l /\ R a b) l'.
Proof.
  induction 1 as [|a b l l' Hab _ IH]; constructor.
  - exists a. split; [left; reflexivity | exact Hab].
  - apply (Forall_impl _ (P := fun b => exists a, In a l /\ R a b)); [|exact IH].
    intros b0 (a0 & Hin & Hr). exists a0. split; [right; exact Hin | exact Hr].
Qed.

(** X20.  Every feature in the log a run of the main program leaves carries
    the identifier [get_imei_mmcli] returned, the capture time of one of the
    windows, a longitude and a latitude that are present and not zero as its
    first two coordinates, a fix type among Invalid, 2D and 3D, and an event
    type with its code from the table, POWER OFF excepted. *)
Theorem log_records (pynmea2_parse : string -> pyres nmea_sentence)
    (float_of_string : string -> pyres float) (int_of_string : string -> pyres Z)
    (run : pyres string) (windows : list (string * list serial_read)) (st : loop_state) :
  main_program pynmea2_parse float_of_string int_of_string run windows = Ok st ->
  Forall (fun f =>
            AFF.esn (AFF.feature_properties f) = get_imei_mmcli run
            /\ (exists w, In w windows
                          /\ AFF.dataCtrTime (AFF.feature_properties f) = fst w)
            /\ (exists lo la al,
                  AFF.coordinates (AFF.feature_geometry f) = [Some lo; Some la; al]
                  /\ PyFloat.truthy lo = true /\ PyFloat.truthy la = true)
            /\ (AFF.fix_ (AFF.feature_properties f) = "Invalid"
                \/ AFF.fix_ (AFF.feature_properties f) = "2D"
                \/ AFF.fix_ (AFF.feature_properties f) = "3D")
            /\ (exists e, e <> POWER_OFF
                          /\ AFF.event_type (AFF.feature_properties f) = event_name e
                          /\ AFF.event_code (AFF.feature_properties f) = EVENT_CODES e))
         (features st).
Proof.
  unfold main_program. intros H.
  destruct (main_loop_log _ _ _ _ H) as (new & Hf & Hall & _ & _).
  rewrite Hf. simpl. apply Forall2_right in Hall.
  revert Hall. apply Forall_impl.
  intros f (g & Hin & (e & He & Hc)).
  apply filter_In in Hin. destruct Hin as [Hin Hfix].
  apply in_map_iff in Hin. destruct Hin as (w & <- & Hw).
  destruct (window_keeps_constants pynmea2_parse float_of_string int_of_string (fst w) (snd w))
    as [Ht Hft].
  destruct (has_fix_coordinates _ Hfix) as (la & lo & Hla & Hlo & Tla & Tlo).
  unfold create_aff_feature in Hc.
  destruct (int_of_number (course _)); simpl in Hc; [|discriminate].
  destruct (PyFloat.to_int (speed_m_s _)); simpl in Hc; [|discriminate].
  inversion Hc; subst f; clear Hc. simpl.
  split; [reflexivity|]. split; [exists w; split; [exact Hw | exact Ht]|].
  split; [eexists lo, la, _; rewrite Hla, Hlo; repeat split; assumption|].
  split; [exact Hft|]. exists e. repeat split; assumption.
Qed.

(** Two windows, the first with a fix and the second without. *)
Lemma log_records_witness :
  exists st,
    main_program Sample.pynmea2_parse Sample.float_of_string Sample.int_of_string
      (Ok "equipment id: 352099001761481")
      [("2024-05-01T10:00:00.000000Z", [Sample.wire Sample.rmc_active; Sample.wire Sample.gsa_3d]);
       ("2024-05-01T10:00:15.000000Z", [Sample.wire Sample.gsa_3d])]
    = Ok st
    /\ List.length (features st) = 1%nat
    /\ Forall (fun f => AFF.esn (AFF.feature_properties f) = "352099001761481") (features st).
Proof.
  eexists. split; [vm_compute; reflexivity|]. split; [reflexivity|].
  assert (H := log_records Sample.pynmea2_parse Sample.float_of_string Sample.int_of_string
                 (Ok "equipment id: 352099001761481")
                 [("2024-05-01T10:00:00.000000Z",
                   [Sample.wire Sample.rmc_active; Sample.wire Sample.gsa_3d]);
                  ("2024-05-01T10:00:15.000000Z", [Sample.wire Sample.gsa_3d])]
                 _ ltac:(vm_compute; reflexivity)).
  apply (Forall_impl _ (P := _) (fun f Hf => proj1 Hf) H).
Defined.

(** A window with a void sentence that has a position, then a sentence with
    status A on the equator: the position kept is the one of the first. *)
Lemma position_of_last_sentence_witness :
  lat (Sample.parse_gps Sample.now
         ([] ++ Bytes Sample.rmc_status_F :: [Bytes Sample.rmc_equator]))
  = Some Sample.munich_lat
  /\ lon (Sample.parse_gps Sample.now
            ([] ++ Bytes Sample.rmc_status_F :: [Bytes Sample.rmc_equator]))
     = Some Sample.munich_lon.
Proof.
  apply (proj1 (position_of_last_sentence Sample.pynmea2_parse Sample.float_of_string
                  Sample.int_of_string Sample.now)
           [] Sample.rmc_status_F [Bytes Sample.rmc_equator]).
  - exists (Sample.rmc_with "F" Sample.munich_lat Sample.munich_lon
              (AttrVal (PyFloat.lit 224 10)) (AttrVal (PyFloat.lit 844 10)) 24).
    split.
    + split; [reflexivity|]. split; [|vm_compute; reflexivity].
      intros (H & _). vm_compute in H. discriminate.
    + split; [reflexivity|]. split; [reflexivity|]. split; vm_compute; reflexivity.
  - intros b' la' lo' [E | []] (m & (_ & _ & Hp) & (Hla & _ & Tla & _)).
    inversion E; subst b'. vm_compute in Hp. inversion Hp; subst m.
    simpl in Hla. inversion Hla; subst la'. vm_compute in Tla. discriminate.
Defined.
